(** * Exam scheduling validation: [ExamForm.clean] of [exam/forms.py]

    A shallow embedding of the one method of the repository that carries
    logic, the cross-field validation of a proposed exam, together with the
    theorems that relate it to the written specification.

    The method works on Python values taken out of a dictionary, reads the
    clock and the user table, and reports a violated rule by raising
    [forms.ValidationError].  The embedding keeps all of that: values are
    dynamically typed, the dictionary is a finite map, a raise is a result
    constructor, and the clock and the user table are read from an explicit
    context. *)

From Stdlib Require Import ZArith Lia.
From stdpp Require Import base option list strings gmap pretty.

Open Scope Z_scope.

(** ** Python values and exceptions *)

(** The [tzinfo] attribute of an aware datetime.  [tz_key] identifies the
    tzinfo object (two datetimes carry the same object exactly when their
    keys are equal), and [tz_offset] is what [utcoffset()] returns for the
    datetime that carries it, in microseconds.  The offset is a datum of
    the datetime, not of the zone: a zone with daylight saving time gives
    different offsets to different datetimes. *)
Record zone_ref := mk_zone_ref { tz_key : string; tz_offset : Z }.

(** A [datetime.datetime].  [wall] is the wall-clock reading, counted in
    microseconds since 0001-01-01T00:00:00 (the first instant of proleptic
    Gregorian ordinal 1).  [tzinfo] is [None] for a naive value.  Python
    confines datetimes to the years 1 to 9999 and raises [OverflowError]
    when an operation leaves that range; the range is not represented, so
    the statements that follow a conversion take its success as a
    hypothesis. *)
Record datetime := mk_datetime { wall : Z; tzinfo : option zone_ref }.

(** Identifier of a row of the user table. *)
Definition user_id := string.

(** The values [cleaned_data] can hold. [VQuerySet] is the evaluated
    result of the [allowed_students] field.  [VTime aware] is a
    [datetime.time]: it has [utcoffset()], which returns [None] unless the
    time carries an offset, and it is not a [datetime.datetime].  Texts and
    integers stand for the objects that have no [utcoffset] at all. *)
Inductive value :=
| VNone
| VStr (s : string)
| VInt (n : Z)
| VDatetime (d : datetime)
| VQuerySet (rows : list user_id)
| VTime (aware : bool).

(** Exceptions other than [ValidationError] that the operations used by
    [clean] raise when they are applied to a value of the wrong type. *)
Inductive pyexc := TypeError | AttributeError | ValueError.

(** Outcome of running Python code: a returned value, a raised
    [forms.ValidationError] with its message, or another exception. *)
Inductive result (A : Type) :=
| Ok (a : A)
| Invalid (msg : string)
| Crash (e : pyexc).
Arguments Ok {A} a.
Arguments Invalid {A} msg.
Arguments Crash {A} e.

#[global] Instance result_ret : MRet result := @Ok.
#[global] Instance result_bind : MBind result := λ A B f m,
  match m with
  | Ok a => f a
  | Invalid msg => Invalid msg
  | Crash e => Crash e
  end.

#[global] Instance zone_ref_eq_dec : EqDecision zone_ref.
Proof. solve_decision. Defined.
#[global] Instance datetime_eq_dec : EqDecision datetime.
Proof. solve_decision. Defined.
#[global] Instance value_eq_dec : EqDecision value.
Proof. solve_decision. Defined.
#[global] Instance pyexc_eq_dec : EqDecision pyexc.
Proof. solve_decision. Defined.
#[global] Instance result_eq_dec `{EqDecision A} : EqDecision (result A).
Proof. solve_decision. Defined.

(** [if c: raise forms.ValidationError(msg)] *)
Definition raise_if (c : bool) (msg : string) : result unit :=
  if c then Invalid msg else Ok tt.

(** ** The calendar *)

Definition us_per_day : Z := 86400000000.
Definition us_per_hour : Z := 3600000000.

(** Year of the day that lies [n] days after 0001-01-01, by the 400, 100,
    4 and 1 year cycles of the proleptic Gregorian calendar; the last day
    of a leap cycle belongs to the year before the one the division names. *)
Definition year_of_days (n : Z) : Z :=
  let n400 := n / 146097 in
  let r400 := n mod 146097 in
  let n100 := r400 / 36524 in
  let r100 := r400 mod 36524 in
  let n4 := r100 / 1461 in
  let r4 := r100 mod 1461 in
  let n1 := r4 / 365 in
  let y := n400 * 400 + 1 + n100 * 100 + n4 * 4 + n1 in
  if (n1 =? 4) || (n100 =? 4) then y - 1 else y.

(** [d.year] *)
Definition year (d : datetime) : Z := year_of_days (wall d / us_per_day).

(** [d + timedelta(microseconds=delta)]: arithmetic on the wall clock; the
    result carries the tzinfo object of [d].  The offset recorded with it
    is that of [d], which is exact for a zone of fixed offset such as UTC.
    For a value of the current zone the recorded offset is never consulted:
    the conversion returns such a value as it is, and values of one zone
    are compared by their wall clocks. *)
Definition dt_add (d : datetime) (delta : Z) : datetime :=
  {| wall := wall d + delta; tzinfo := tzinfo d |}.

(** Ordering of two datetimes: by wall clock when both are naive or both
    carry the same tzinfo object, by instant when they carry different
    ones, [TypeError] when one is naive and the other aware. *)
Definition dt_compare (a b : datetime) : result comparison :=
  match tzinfo a, tzinfo b with
  | None, None => Ok (wall a ?= wall b)
  | Some za, Some zb =>
      if bool_decide (tz_key za = tz_key zb) then Ok (wall a ?= wall b)
      else Ok (wall a - tz_offset za ?= wall b - tz_offset zb)
  | _, _ => Crash TypeError
  end.

(** [a >= b] *)
Definition dt_ge (a b : datetime) : result bool :=
  c ← dt_compare a b;
  mret (match c with Lt => false | _ => true end).

(** [a < b] *)
Definition dt_lt (a b : datetime) : result bool :=
  c ← dt_compare a b;
  mret (match c with Lt => true | _ => false end).

(** ** Operations on dynamically typed values *)

(** [bool(v)] *)
Definition truthy (v : value) : bool :=
  match v with
  | VNone => false
  | VStr s => negb (String.eqb s "")
  | VInt n => negb (n =? 0)
  | VDatetime _ => true
  | VQuerySet rows => negb (bool_decide (rows = []))
  | VTime _ => true
  end.

(** [len(v)] *)
Definition py_len (v : value) : result Z :=
  match v with
  | VStr s => Ok (Z.of_nat (String.length s))
  | VQuerySet rows => Ok (Z.of_nat (length rows))
  | _ => Crash TypeError
  end.

(** [v == 'literal']: a string equal to the literal; a value of any other
    type is not equal to a string. *)
Definition py_eq_str (v : value) (literal : string) : bool :=
  match v with
  | VStr s => String.eqb s literal
  | _ => false
  end.

(** [d.get(key)]: the stored value, [None] when the key is absent. *)
Definition dict_get (d : gmap string value) (key : string) : value :=
  default VNone (d !! key).

(** [timezone.is_aware(v)], that is [v.utcoffset() is not None]. *)
Definition is_aware (v : value) : result bool :=
  match v with
  | VDatetime d => Ok (bool_decide (is_Some (tzinfo d)))
  | VTime aware => Ok aware
  | _ => Crash AttributeError
  end.

(** [if not isinstance(v, datetime): raise forms.ValidationError(msg)];
    on success the value is known to be a datetime. *)
Definition expect_datetime (v : value) (msg : string) : result datetime :=
  match v with
  | VDatetime d => Ok d
  | _ => Invalid msg
  end.

(** ** The ambient context: clock, zone and user table *)

(** What [clean] reads from outside its arguments.  [utc_now] is the
    instant [timezone.now()] returns, [current_timezone] the key of the
    tzinfo object [timezone.get_current_timezone()] returns,
    [utcoffset_at u] the UTC offset that zone has at the UTC instant [u],
    and [student_count k] the answer the database gives to the [k]-th
    execution, within one call, of
    [User.objects.filter(user_type='student').count()]. *)
Record context := mk_context {
  utc_now : Z;
  current_timezone : string;
  utcoffset_at : Z → Z;
  student_count : nat → Z
}.

(** The key of the object [datetime.timezone.utc]. *)
Definition utc_key : string := "datetime.timezone.utc".

(** [timezone.now()]: the current instant as an aware datetime in UTC. *)
Definition timezone_now (ctx : context) : datetime :=
  {| wall := utc_now ctx;
     tzinfo := Some {| tz_key := utc_key; tz_offset := 0 |} |}.

(** [d.astimezone(tz)] for [tz] the current zone and [d] aware with
    tzinfo [z].  A value that already carries the current zone object is
    returned as it is; any other value is taken to UTC and read at the
    offset the current zone has at that instant. *)
Definition astimezone (ctx : context) (d : datetime) (z : zone_ref) : datetime :=
  if bool_decide (tz_key z = current_timezone ctx) then d
  else
    let utc := wall d - tz_offset z in
    {| wall := utc + utcoffset_at ctx utc;
       tzinfo := Some {| tz_key := current_timezone ctx;
                         tz_offset := utcoffset_at ctx utc |} |}.

(** [timezone.localtime(timezone.now())] *)
Definition local_now (ctx : context) : datetime :=
  astimezone ctx (timezone_now ctx) {| tz_key := utc_key; tz_offset := 0 |}.

(** [timezone.localtime(v)]: conversion to the current zone; [None] stands
    for now, a value whose [utcoffset()] is [None] is refused, and any other
    value is asked for its [astimezone]. *)
Definition timezone_localtime (ctx : context) (v : value) : result value :=
  match v with
  | VNone => Ok (VDatetime (local_now ctx))
  | VDatetime d =>
      match tzinfo d with
      | Some z => Ok (VDatetime (astimezone ctx d z))
      | None => Crash ValueError
      end
  | VTime aware => if aware then Crash AttributeError else Crash ValueError
  | _ => Crash AttributeError
  end.

(** ** The messages of [clean] *)

(** The double-quote character that two of the messages contain. *)
Definition dq : string := String (Ascii.ascii_of_nat 34) EmptyString.

Definition msg_start_invalid : string :=
  "Start date and time is not a valid date/time.".
Definition msg_end_invalid : string :=
  "End date and time is not a valid date/time.".
Definition msg_all_students_unavailable : string :=
  "Cannot create exam for " +:+ dq +:+ "All Students" +:+ dq +:+
  " because there are no students registered in the system. " +:+
  "Please register students first or change access type to " +:+
  dq +:+ "Specific Students" +:+ dq +:+ ".".
Definition msg_no_participants : string :=
  "This exam has no participants. Please select at least one student or change access type to "
  +:+ dq +:+ "All Students" +:+ dq +:+ ".".
Definition msg_no_students : string :=
  "Cannot create exam because there are no students in the system. Please register students first.".
Definition msg_range : string :=
  "Start date and time must be before end date and time.".
(** [f'Start date must be between {now.year} and {max_year}.'] *)
Definition msg_start_year (now_year max_year : Z) : string :=
  "Start date must be between " +:+ pretty now_year +:+ " and " +:+
  pretty max_year +:+ ".".
(** [f'End date must be between {now.year} and {max_year}.'] *)
Definition msg_end_year (now_year max_year : Z) : string :=
  "End date must be between " +:+ pretty now_year +:+ " and " +:+
  pretty max_year +:+ ".".
Definition msg_past : string :=
  "Start date and time must not be in the past.".
Definition msg_required : string :=
  "Both start and end date/time are required.".

(** ** [ExamForm.clean] *)

(** [if v and timezone.is_aware(v): v = timezone.localtime(v)]; the result
    is the new binding of the local variable. *)
Definition to_local_if_aware (ctx : context) (v : value) : result value :=
  aware ← (if truthy v then is_aware v else Ok false);
  if aware : bool then timezone_localtime ctx v else Ok v.

(** [ExamForm.clean].  [cleaned_data] is the dictionary returned by
    [super().clean()]. *)
Definition clean (ctx : context) (cleaned_data : gmap string value)
  : result (gmap string value) :=
  let access_type := dict_get cleaned_data "access_type" in
  let allowed_students := dict_get cleaned_data "allowed_students" in
  let start_date_time := dict_get cleaned_data "start_date_time" in
  let end_date_time := dict_get cleaned_data "end_date_time" in
  let now := local_now ctx in
  let max_year := year now + 10 in
  (* Convert start and end times to local time if they are aware *)
  start_date_time ← to_local_if_aware ctx start_date_time;
  end_date_time ← to_local_if_aware ctx end_date_time;
  (* Type check for start_date_time and end_date_time *)
  start_dt ← expect_datetime start_date_time msg_start_invalid;
  end_dt ← expect_datetime end_date_time msg_end_invalid;
  (* Validate that there are students available when access_type is
     'all_students' *)
  (if py_eq_str access_type "all_students" then
     let total_students := student_count ctx 0%nat in
     raise_if (total_students =? 0) msg_all_students_unavailable
   else Ok tt);;
  (* Final validation: ensure exam has participants *)
  (if py_eq_str access_type "specific_students" then
     none_selected ←
       (if negb (truthy allowed_students) then Ok true
        else n ← py_len allowed_students; Ok (n =? 0));
     raise_if none_selected msg_no_participants
   else if py_eq_str access_type "all_students" then
     let total_students := student_count ctx 1%nat in
     raise_if (total_students =? 0) msg_no_students
   else Ok tt);;
  (* Validate that start time is before end time *)
  (if truthy start_date_time && truthy end_date_time then
     not_before ← dt_ge start_dt end_dt;
     raise_if not_before msg_range;;
     (* Validate that dates are not in the far past or future *)
     raise_if ((year start_dt <? year now) || (year start_dt >? max_year))
              (msg_start_year (year now) max_year);;
     raise_if ((year end_dt <? year now) || (year end_dt >? max_year))
              (msg_end_year (year now) max_year);;
     (* Validate that start date is not before now *)
     in_past ← dt_lt start_dt now;
     raise_if in_past msg_past
   else Invalid msg_required);;
  Ok cleaned_data.

(** The errors a call leaves on the form: the message of the
    [ValidationError] it raised, if it raised one. *)
Definition errors_of {A} (r : result A) : list string :=
  match r with
  | Invalid msg => [msg]
  | _ => []
  end.

(** ** The method, rule by rule *)

(** The local variables of [clean] once the type check has succeeded. *)
Record locals := mk_locals {
  l_access_type : value;
  l_allowed_students : value;
  l_start : datetime;
  l_end : datetime
}.

(** Everything [clean] does up to and including the type check: reading
    the four fields, converting aware times, and the two [isinstance]
    tests. *)
Definition bind_locals (ctx : context) (cleaned_data : gmap string value)
  : result locals :=
  start_date_time ← to_local_if_aware ctx (dict_get cleaned_data "start_date_time");
  end_date_time ← to_local_if_aware ctx (dict_get cleaned_data "end_date_time");
  start_dt ← expect_datetime start_date_time msg_start_invalid;
  end_dt ← expect_datetime end_date_time msg_end_invalid;
  Ok {| l_access_type := dict_get cleaned_data "access_type";
        l_allowed_students := dict_get cleaned_data "allowed_students";
        l_start := start_dt; l_end := end_dt |}.

(** The [if access_type == 'all_students'] statement that precedes the
    participant check. *)
Definition check_students_available (ctx : context) (access_type : value)
  : result unit :=
  if py_eq_str access_type "all_students" then
    raise_if (student_count ctx 0%nat =? 0) msg_all_students_unavailable
  else Ok tt.

(** The [if access_type == 'specific_students'] / [elif] statement. *)
Definition check_participants (ctx : context) (access_type allowed_students : value)
  : result unit :=
  if py_eq_str access_type "specific_students" then
    none_selected ←
      (if negb (truthy allowed_students) then Ok true
       else n ← py_len allowed_students; Ok (n =? 0));
    raise_if none_selected msg_no_participants
  else if py_eq_str access_type "all_students" then
    raise_if (student_count ctx 1%nat =? 0) msg_no_students
  else Ok tt.

(** [if start_date_time >= end_date_time: raise ...] *)
Definition check_ordering (start_dt end_dt : datetime) : result unit :=
  not_before ← dt_ge start_dt end_dt;
  raise_if not_before msg_range.

(** The year test on [d], with the message built by [msg]. *)
Definition check_year (ctx : context) (d : datetime) (msg : Z → Z → string)
  : result unit :=
  let now := local_now ctx in
  let max_year := year now + 10 in
  raise_if ((year d <? year now) || (year d >? max_year)) (msg (year now) max_year).

(** [if start_date_time < now: raise ...] *)
Definition check_not_past (ctx : context) (start_dt : datetime) : result unit :=
  in_past ← dt_lt start_dt (local_now ctx);
  raise_if in_past msg_past.

(** The [else] of [if start_date_time and end_date_time]. *)
Definition check_required (start_dt end_dt : datetime) : result unit :=
  raise_if (negb (truthy (VDatetime start_dt) && truthy (VDatetime end_dt)))
           msg_required.

(** The rules that follow the type check, each evaluated on its own, in
    the order in which [clean] reaches them. *)
Definition rule_checks (ctx : context) (l : locals) : list (result unit) :=
  [ check_students_available ctx (l_access_type l);
    check_participants ctx (l_access_type l) (l_allowed_students l);
    check_ordering (l_start l) (l_end l);
    check_year ctx (l_start l) msg_start_year;
    check_year ctx (l_end l) msg_end_year;
    check_not_past ctx (l_start l);
    check_required (l_start l) (l_end l) ].

(** Statements executed one after the other: the first one that raises
    ends the run. *)
Fixpoint run_checks (cs : list (result unit)) : result unit :=
  match cs with
  | [] => Ok tt
  | c :: cs => c;; run_checks cs
  end.

(** What the conversion step binds for a datetime: an aware value read in
    the current zone, a naive value itself. *)
Definition localize (ctx : context) (d : datetime) : datetime :=
  match tzinfo d with
  | Some z => astimezone ctx d z
  | None => d
  end.

(** ** The error taxonomy of the specification *)

Inductive ErrorKind :=
| InvalidType | NoParticipants | InvalidRange | OutOfBounds | InPast | Required.

#[global] Instance ErrorKind_eq_dec : EqDecision ErrorKind.
Proof. solve_decision. Defined.

(** The kind the specification gives to each message of [clean]. *)
Definition kind_of (msg : string) : option ErrorKind :=
  if bool_decide (msg = msg_start_invalid) || bool_decide (msg = msg_end_invalid)
  then Some InvalidType
  else if bool_decide (msg = msg_all_students_unavailable)
       || bool_decide (msg = msg_no_participants)
       || bool_decide (msg = msg_no_students)
  then Some NoParticipants
  else if bool_decide (msg = msg_range) then Some InvalidRange
  else if String.prefix "Start date must be between " msg
       || String.prefix "End date must be between " msg
  then Some OutOfBounds
  else if bool_decide (msg = msg_past) then Some InPast
  else if bool_decide (msg = msg_required) then Some Required
  else None.

(** The specification's reading of the accumulation rule at one input:
    once the type check has passed, the message of every rule that fails
    is among the reported errors. *)
Definition reports_every_failure (ctx : context) (cleaned_data : gmap string value)
  : Prop :=
  ∀ l msg, bind_locals ctx cleaned_data = Ok l →
           Invalid msg ∈ rule_checks ctx l →
           msg ∈ errors_of (clean ctx cleaned_data).


(** How the conversion step relates a datetime [d] to the value [d'] it
    binds.  A naive [d] stays what it is, and so does an aware [d] that
    already carries the current zone object.  Any other aware [d] becomes
    a datetime of the current zone that denotes the same instant, at the
    offset the zone has at that instant. *)
Definition converted (ctx : context) (d d' : datetime) : Prop :=
  match tzinfo d with
  | None => d' = d
  | Some z =>
      if bool_decide (tz_key z = current_timezone ctx) then d' = d
      else
        ∃ z', tzinfo d' = Some z' ∧
              tz_key z' = current_timezone ctx ∧
              tz_offset z' = utcoffset_at ctx (wall d - tz_offset z) ∧
              wall d' - tz_offset z' = wall d - tz_offset z
  end.

(** ** Sample contexts and candidates *)

(** 2026-11-03T12:00:00 UTC, a zone that is two hours east of UTC all
    year, three students at every query. *)
Definition ctx_sample : context :=
  {| utc_now := 63929304000000000;
     current_timezone := "Africa/Cairo";
     utcoffset_at := λ _, 2 * us_per_hour;
     student_count := λ _, 3 |}.

(** The same instant and zone with an empty student table. *)
Definition ctx_no_students : context :=
  {| utc_now := 63929304000000000;
     current_timezone := "Africa/Cairo";
     utcoffset_at := λ _, 2 * us_per_hour;
     student_count := λ _, 0 |}.

(** The same instant and zone, where the last student is registered
    after the first query and removed before the second. *)
Definition ctx_students_vanish : context :=
  {| utc_now := 63929304000000000;
     current_timezone := "Africa/Cairo";
     utcoffset_at := λ _, 2 * us_per_hour;
     student_count := λ k, match k with O => 1 | _ => 0 end |}.

(** The end of daylight saving time in Paris in 2026: the offset is two
    hours before 2026-10-25T01:00:00 UTC and one hour from then on, so that
    the local wall clock shows the hour from 02:00 to 03:00 twice. *)
Definition paris_fall_back : Z := 63928486800000000.
Definition paris_offset (utc : Z) : Z :=
  if utc <? paris_fall_back then 2 * us_per_hour else us_per_hour.

(** 2026-10-24T23:30:00 UTC in Paris, 01:30 on the local wall clock, an
    hour and a half before the clocks go back. *)
Definition ctx_paris : context :=
  {| utc_now := paris_fall_back - us_per_hour - us_per_hour / 2;
     current_timezone := "Europe/Paris";
     utcoffset_at := paris_offset;
     student_count := λ _, 3 |}.

(** The instant [delta] microseconds after now, written in UTC. *)
Definition utc_after_now (ctx : context) (delta : Z) : datetime :=
  dt_add (timezone_now ctx) delta.

(** Scenario A in Paris with its two times written in UTC: the instants
    one and two hours after now, 00:30 and 01:30 UTC. *)
Definition cd_paris : gmap string value :=
  <["start_date_time" := VDatetime (utc_after_now ctx_paris us_per_hour)]>
  (<["end_date_time" := VDatetime (utc_after_now ctx_paris (2 * us_per_hour))]>
  (<["access_type" := VStr "specific_students"]>
  (<["allowed_students" := VQuerySet ["s1"]]> ∅))).

(** Scenario A of the specification on top of arbitrary other fields:
    a window from one to two hours after now, for the single student s1. *)
Definition scenario_A (ctx : context) (others : gmap string value)
  : gmap string value :=
  <["start_date_time" := VDatetime (dt_add (local_now ctx) us_per_hour)]>
  (<["end_date_time" := VDatetime (dt_add (local_now ctx) (2 * us_per_hour))]>
  (<["access_type" := VStr "specific_students"]>
  (<["allowed_students" := VQuerySet ["s1"]]> others))).

(** The title and the numeric fields of a well-formed submission. *)
Definition other_fields : gmap string value :=
  <["title" := VStr "Midterm"]>
  (<["description" := VStr ""]>
  (<["duration_minutes" := VInt 60]>
  (<["max_attempts" := VInt 1]>
  (<["passing_percentage" := VInt 50]> ∅)))).

(** No student selected, and a window that ends before it starts. *)
Definition cd_two_failures : gmap string value :=
  <["start_date_time" := VDatetime (dt_add (local_now ctx_sample) (2 * us_per_hour))]>
  (<["end_date_time" := VDatetime (dt_add (local_now ctx_sample) us_per_hour)]>
  (<["allowed_students" := VQuerySet []]> (scenario_A ctx_sample other_fields))).

(** No student selected and no start time. *)
Definition cd_no_start_no_students : gmap string value :=
  delete "start_date_time"
    (<["allowed_students" := VQuerySet []]> (scenario_A ctx_sample other_fields)).


(** Scenario A opened to all students. *)
Definition cd_all_students : gmap string value :=
  <["access_type" := VStr "all_students"]> (scenario_A ctx_sample other_fields).

(** Scenario A without its start time. *)
Definition cd_no_start : gmap string value :=
  delete "start_date_time" (scenario_A ctx_sample other_fields).

(** Scenario A with both times given in UTC rather than in the current
    zone: 13:00 and 14:00 UTC on 2026-11-03. *)
Definition dt_start_utc : datetime :=
  {| wall := 63929304000000000 + us_per_hour;
     tzinfo := Some {| tz_key := utc_key; tz_offset := 0 |} |}.
Definition dt_end_utc : datetime :=
  {| wall := 63929304000000000 + 2 * us_per_hour;
     tzinfo := Some {| tz_key := utc_key; tz_offset := 0 |} |}.
Definition cd_utc : gmap string value :=
  <["start_date_time" := VDatetime dt_start_utc]>
  (<["end_date_time" := VDatetime dt_end_utc]> (scenario_A ctx_sample other_fields)).

(** A naive datetime: 2026-11-03T15:00 with no zone. *)
Definition dt_naive : datetime :=
  {| wall := 63929304000000000 + 3 * us_per_hour; tzinfo := None |}.

(** A submission without access type and without students. *)
Definition cd_no_access_type : gmap string value :=
  delete "access_type" (delete "allowed_students" (scenario_A ctx_sample other_fields)).

(** Scenario A in Paris with its start written in UTC and a naive end. *)
Definition cd_paris_naive_end : gmap string value :=
  <["end_date_time" := VDatetime dt_naive]> cd_paris.

(** ** The rest of the form: [Meta] and [__init__] *)

(** *** Calendar fields and [strftime] *)

Definition us_per_minute : Z := 60000000.

(** Days from 0001-01-01 to the first day of year [y]. *)
Definition days_before_year (y : Z) : Z :=
  365 * (y - 1) + (y - 1) / 4 - (y - 1) / 100 + (y - 1) / 400.

Definition is_leap (y : Z) : bool :=
  (y mod 4 =? 0) && (negb (y mod 100 =? 0) || (y mod 400 =? 0)).

Definition month_lengths (y : Z) : list Z :=
  [31; if is_leap y then 29 else 28; 31; 30; 31; 30; 31; 31; 30; 31; 30; 31].

(** Month and day of the month of the day that lies [doy] days after the
    first day of a year whose months, from month [m] on, have the lengths
    [lens]. *)
Fixpoint month_day (lens : list Z) (m doy : Z) : Z * Z :=
  match lens with
  | [] => (m, doy + 1)
  | len :: rest =>
      if doy <? len then (m, doy + 1) else month_day rest (m + 1) (doy - len)
  end.

(** [d.month], [d.day], [d.hour], [d.minute] *)
Definition month_and_day (d : datetime) : Z * Z :=
  let n := wall d / us_per_day in
  let y := year_of_days n in
  month_day (month_lengths y) 1 (n - days_before_year y).
Definition hour (d : datetime) : Z := (wall d mod us_per_day) / us_per_hour.
Definition minute (d : datetime) : Z := (wall d mod us_per_hour) / us_per_minute.

(** [n] zeros. *)
Fixpoint zeros (n : nat) : string :=
  match n with
  | O => ""
  | S n => "0" +:+ zeros n
  end.

(** A number written in decimal, padded with zeros on the left to [width]
    characters. *)
Definition zero_pad (width : nat) (digits : string) : string :=
  zeros (width - String.length digits) +:+ digits.

(** [d.strftime('%Y-%m-%dT%H:%M')]: the year as the C library writes it,
    without padding, the other fields on two digits; the format has no
    field for seconds. *)
Definition strftime_minutes (d : datetime) : string :=
  pretty (year d) +:+ "-" +:+
  zero_pad 2 (pretty (fst (month_and_day d))) +:+ "-" +:+
  zero_pad 2 (pretty (snd (month_and_day d))) +:+ "T" +:+
  zero_pad 2 (pretty (hour d)) +:+ ":" +:+
  zero_pad 2 (pretty (minute d)).

(** *** The class body of [Meta] *)

(** [now + timedelta(days=365*10)], with [now] the local time at which the
    class body runs. *)
Definition Meta_max_bound (ctx : context) : datetime :=
  dt_add (local_now ctx) (365 * 10 * us_per_day).

(** [min_date] and [max_date], the [min] and [max] attributes of the two
    [DateTimeInput] widgets. *)
Definition Meta_min_date (ctx : context) : string :=
  strftime_minutes (local_now ctx).
Definition Meta_max_date (ctx : context) : string :=
  strftime_minutes (Meta_max_bound ctx).

(** *** [ExamForm.__init__] *)

(** The part of [self.instance] the constructor reads. *)
Record exam_instance := mk_exam_instance {
  pk : value;
  inst_start_date_time : value;
  inst_end_date_time : value
}.

(** The field attributes the constructor assigns: the [user_type] the
    [allowed_students] queryset is filtered on, the help text of that field,
    and the initial values of the two time fields ([None] when left as
    [super().__init__] made them). *)
Record form_fields := mk_form_fields {
  allowed_students_user_type : string;
  allowed_students_help_text : string;
  start_initial : value;
  end_initial : value
}.

(** [if stored: local = timezone.localtime(stored);
        field.initial = local.strftime('%Y-%m-%dT%H:%M')] *)
Definition initial_of (ctx : context) (stored : value) : result value :=
  if truthy stored then
    local ← timezone_localtime ctx stored;
    match local with
    | VDatetime d => Ok (VStr (strftime_minutes d))
    | _ => Crash AttributeError
    end
  else Ok VNone.

(** [ExamForm.__init__], after [super().__init__]; a model instance is
    always there and is truthy. *)
Definition init (ctx : context) (instance : exam_instance) : result form_fields :=
  let user_type := "student" in
  let help_text := "Hold Ctrl/Cmd to select multiple students" in
  (* Convert datetime fields to local timezone for display *)
  if truthy (pk instance) then
    s ← initial_of ctx (inst_start_date_time instance);
    e ← initial_of ctx (inst_end_date_time instance);
    Ok {| allowed_students_user_type := user_type;
          allowed_students_help_text := help_text;
          start_initial := s; end_initial := e |}
  else
    Ok {| allowed_students_user_type := user_type;
          allowed_students_help_text := help_text;
          start_initial := VNone; end_initial := VNone |}.

(** The outcome of a call without the value it returns: accepted, rejected
    with a message, or ended by another exception. *)
Definition verdict {A} (r : result A) : result unit := r;; Ok tt.

(** ** More sample candidates and instances *)

(** Scenario A with both times naive, read on the local wall clock. *)
Definition cd_naive : gmap string value :=
  <["start_date_time" :=
      VDatetime {| wall := wall (local_now ctx_sample) + us_per_hour; tzinfo := None |}]>
  (<["end_date_time" :=
      VDatetime {| wall := wall (local_now ctx_sample) + 2 * us_per_hour;
                   tzinfo := None |}]>
   (scenario_A ctx_sample other_fields)).

(** Scenario A with a start time that the field left as text. *)
Definition cd_text_start : gmap string value :=
  <["start_date_time" := VStr "tomorrow"]> (scenario_A ctx_sample other_fields).

(** Scenario A with an empty text as start time. *)
Definition cd_empty_start : gmap string value :=
  <["start_date_time" := VStr ""]> (scenario_A ctx_sample other_fields).

(** Scenario B of the specification: a window from one hour ago to one
    hour from now. *)
Definition cd_started : gmap string value :=
  <["start_date_time" := VDatetime (dt_add (local_now ctx_sample) (- us_per_hour))]>
  (<["end_date_time" := VDatetime (dt_add (local_now ctx_sample) us_per_hour)]>
   (scenario_A ctx_sample other_fields)).

(** A window that starts and ends 4100 days (more than eleven years) from
    now. *)
Definition cd_far_future : gmap string value :=
  <["start_date_time" :=
      VDatetime (dt_add (local_now ctx_sample) (4100 * us_per_day))]>
  (<["end_date_time" :=
      VDatetime (dt_add (local_now ctx_sample) (4100 * us_per_day + us_per_hour))]>
   (scenario_A ctx_sample other_fields)).

(** A window that starts in an hour and ends 4100 days from now. *)
Definition cd_far_end : gmap string value :=
  <["end_date_time" :=
      VDatetime (dt_add (local_now ctx_sample) (4100 * us_per_day))]>
  (scenario_A ctx_sample other_fields).

(** A saved exam whose times are stored in UTC: 13:00:30 and 14:00 UTC on
    2026-11-03. *)
Definition exam_saved : exam_instance :=
  {| pk := VInt 7;
     inst_start_date_time :=
       VDatetime {| wall := wall dt_start_utc + 30000000;
                    tzinfo := Some {| tz_key := utc_key; tz_offset := 0 |} |};
     inst_end_date_time := VDatetime dt_end_utc |}.

(** The same exam with its times stored at a fixed offset of three hours
    east of UTC. *)
Definition exam_saved_local : exam_instance :=
  {| pk := VInt 7;
     inst_start_date_time :=
       VDatetime {| wall := wall dt_start_utc + 3 * us_per_hour;
                    tzinfo := Some {| tz_key := "UTC+03:00";
                                      tz_offset := 3 * us_per_hour |} |};
     inst_end_date_time :=
       VDatetime {| wall := wall dt_end_utc + 3 * us_per_hour;
                    tzinfo := Some {| tz_key := "UTC+03:00";
                                      tz_offset := 3 * us_per_hour |} |} |}.

(** A saved exam with a naive start time, and the same exam not yet
    saved. *)
Definition exam_saved_naive : exam_instance :=
  {| pk := VInt 7;
     inst_start_date_time := VDatetime dt_naive;
     inst_end_date_time := VDatetime dt_end_utc |}.
Definition exam_unsaved_naive : exam_instance :=
  {| pk := VNone;
     inst_start_date_time := VDatetime dt_naive;
     inst_end_date_time := VDatetime dt_end_utc |}.

(** In Paris, a window written in UTC that starts at 01:15 UTC, after the
    clocks went back, and ends at 00:45 UTC, before they did: on the local
    wall clock it runs from 02:15 to 02:45. *)
Definition cd_paris_fold : gmap string value :=
  <["start_date_time" :=
      VDatetime {| wall := paris_fall_back + us_per_hour / 4;
                   tzinfo := Some {| tz_key := utc_key; tz_offset := 0 |} |}]>
  (<["end_date_time" :=
      VDatetime {| wall := paris_fall_back - us_per_hour / 4;
                   tzinfo := Some {| tz_key := utc_key; tz_offset := 0 |} |}]>
   cd_paris).

(** Scenario A with a time of day, without offset, as start time. *)
Definition cd_time_start : gmap string value :=
  <["start_date_time" := VTime false]> (scenario_A ctx_sample other_fields).

(** The start time of Scenario A, 13:00 UTC on 2026-11-03, written at a
    fixed offset of three hours east of UTC. *)
Definition dt_start_plus3 : datetime :=
  {| wall := wall dt_start_utc + 3 * us_per_hour;
     tzinfo := Some {| tz_key := "UTC+03:00"; tz_offset := 3 * us_per_hour |} |}.

(** * Properties *)

(** ** The result monad *)

Lemma bind_Ok {A B} (m : result A) (f : A → result B) (b : B) :
  m ≫= f = Ok b → ∃ a, m = Ok a ∧ f a = Ok b.
Proof. destruct m; simpl; intros; [eauto | done | done]. Qed.

Lemma raise_if_Ok c msg : raise_if c msg = Ok tt → c = false.
Proof. by destruct c. Qed.

Lemma raise_if_Invalid c msg m : raise_if c msg = Invalid m → c = true ∧ m = msg.
Proof. destruct c; simpl; [by intros [= ->] | done]. Qed.

Lemma raise_if_not_Crash c msg e : raise_if c msg ≠ Crash e.
Proof. by destruct c. Qed.

Lemma run_checks_all_ok cs : Forall (λ c, c = Ok tt) cs → run_checks cs = Ok tt.
Proof. induction 1 as [|c cs -> _ IH]; simpl; done. Qed.

Lemma run_checks_first_failure pre m post :
  Forall (λ c, c = Ok tt) pre → run_checks (pre ++ Invalid m :: post) = Invalid m.
Proof. induction 1 as [|c cs -> _ IH]; simpl; done. Qed.

(** ** [clean] is its rules run in sequence *)

Lemma clean_unfold ctx cd :
  clean ctx cd = l ← bind_locals ctx cd; run_checks (rule_checks ctx l);; Ok cd.
Proof.
  unfold clean, bind_locals.
  destruct (to_local_if_aware ctx (dict_get cd "start_date_time")) as [v1| |];
    simpl; [|done..].
  destruct (to_local_if_aware ctx (dict_get cd "end_date_time")) as [v2| |];
    simpl; [|done..].
  destruct v1 as [| | |s| |]; simpl; try done.
  destruct v2 as [| | |e| |]; simpl; try done.
  unfold check_students_available, check_participants, check_ordering,
    check_year, check_not_past, check_required; simpl.
  repeat match goal with
         | |- context [mbind _ ?m] =>
             lazymatch m with
             | mbind _ _ => fail
             | _ => destruct m eqn:?; simpl; try done
             end
         end.
Qed.

Lemma to_local_if_aware_datetime ctx d :
  to_local_if_aware ctx (VDatetime d) = Ok (VDatetime (localize ctx d)).
Proof. unfold to_local_if_aware, localize. simpl. by destruct (tzinfo d). Qed.

Lemma to_local_if_aware_None ctx : to_local_if_aware ctx VNone = Ok VNone.
Proof. done. Qed.

Lemma bind_locals_datetimes ctx cd s e :
  dict_get cd "start_date_time" = VDatetime s →
  dict_get cd "end_date_time" = VDatetime e →
  bind_locals ctx cd
  = Ok {| l_access_type := dict_get cd "access_type";
          l_allowed_students := dict_get cd "allowed_students";
          l_start := localize ctx s; l_end := localize ctx e |}.
Proof.
  intros Hs He. unfold bind_locals.
  by rewrite Hs, He, !to_local_if_aware_datetime.
Qed.

Lemma clean_datetimes ctx cd s e :
  dict_get cd "start_date_time" = VDatetime s →
  dict_get cd "end_date_time" = VDatetime e →
  clean ctx cd
  = (run_checks (rule_checks ctx
       {| l_access_type := dict_get cd "access_type";
          l_allowed_students := dict_get cd "allowed_students";
          l_start := localize ctx s; l_end := localize ctx e |});; Ok cd).
Proof.
  intros Hs He. by rewrite clean_unfold, (bind_locals_datetimes _ _ s e).
Qed.

Lemma clean_accepts ctx cd s e :
  dict_get cd "start_date_time" = VDatetime s →
  dict_get cd "end_date_time" = VDatetime e →
  run_checks (rule_checks ctx
    {| l_access_type := dict_get cd "access_type";
       l_allowed_students := dict_get cd "allowed_students";
       l_start := localize ctx s; l_end := localize ctx e |}) = Ok tt →
  clean ctx cd = Ok cd.
Proof. intros Hs He Hrun. by rewrite (clean_datetimes _ _ s e Hs He), Hrun. Qed.

(** After the conversion every aware value carries the current zone
    object, and so does now; such values are ordered by their wall clocks. *)
Lemma localize_naive ctx d : tzinfo d = None → localize ctx d = d.
Proof. unfold localize. by intros ->. Qed.

Lemma localize_in_current_zone ctx d z :
  tzinfo d = Some z →
  ∃ z', tzinfo (localize ctx d) = Some z' ∧ tz_key z' = current_timezone ctx.
Proof.
  intros Hd. unfold localize, astimezone. rewrite Hd.
  case_bool_decide; simpl; eauto.
Qed.

Lemma tzinfo_localize ctx d : tzinfo (localize ctx d) = None ↔ tzinfo d = None.
Proof.
  split; [|by intros H; rewrite localize_naive].
  destruct (tzinfo d) as [z|] eqn:Hd; [|done].
  destruct (localize_in_current_zone ctx d z Hd) as (z' & -> & _). done.
Qed.

Lemma local_now_in_current_zone ctx :
  ∃ z, tzinfo (local_now ctx) = Some z ∧ tz_key z = current_timezone ctx.
Proof. unfold local_now, astimezone. case_bool_decide; simpl; eauto. Qed.

Lemma same_zone_compare a b za zb :
  tzinfo a = Some za → tzinfo b = Some zb → tz_key za = tz_key zb →
  dt_compare a b = Ok (wall a ?= wall b).
Proof.
  intros Ha Hb Hkey. unfold dt_compare. rewrite Ha, Hb.
  by rewrite bool_decide_eq_true_2.
Qed.

(** The conversion does nothing to a value it has produced. *)
Lemma localize_idemp ctx d : localize ctx (localize ctx d) = localize ctx d.
Proof.
  destruct (tzinfo d) as [z|] eqn:Hd;
    [|by rewrite (localize_naive ctx d Hd), (localize_naive ctx d Hd)].
  destruct (localize_in_current_zone ctx d z Hd) as (z' & Hz' & Hkey).
  unfold localize at 1. rewrite Hz'. unfold astimezone.
  by rewrite bool_decide_eq_true_2.
Qed.

Lemma local_now_localize ctx : localize ctx (local_now ctx) = local_now ctx.
Proof.
  destruct (local_now_in_current_zone ctx) as (z & Hz & Hkey).
  unfold localize. rewrite Hz. unfold astimezone.
  by rewrite bool_decide_eq_true_2.
Qed.

Lemma py_eq_str_refl s : py_eq_str (VStr s) s = true.
Proof. apply String.eqb_refl. Qed.

Lemma py_eq_str_ne v s : v ≠ VStr s → py_eq_str v s = false.
Proof.
  destruct v as [|s'| | | |]; simpl; try done.
  intros Hne. apply String.eqb_neq. congruence.
Qed.

Lemma specific_is_not_all :
  py_eq_str (VStr "specific_students") "all_students" = false.
Proof. by vm_compute. Qed.

Lemma all_is_not_specific :
  py_eq_str (VStr "all_students") "specific_students" = false.
Proof. by vm_compute. Qed.

Lemma localize_converted ctx d : converted ctx d (localize ctx d).
Proof.
  unfold converted, localize, astimezone.
  destruct (tzinfo d) as [z|]; [|done].
  case_bool_decide; [done|]. cbv zeta.
  eexists. split; [done|]. cbn. split; [done|]. split; [done|]. lia.
Qed.

Lemma to_local_if_aware_Ok_datetime ctx v d :
  to_local_if_aware ctx v = Ok (VDatetime d) →
  ∃ d0, v = VDatetime d0 ∧ d = localize ctx d0.
Proof.
  destruct v as [|str|n|d0|rows|aw].
  - done.
  - unfold to_local_if_aware. simpl. by destruct (negb (String.eqb str "")).
  - unfold to_local_if_aware. simpl. by destruct (negb (n =? 0)).
  - rewrite to_local_if_aware_datetime. intros [= <-]. eauto.
  - unfold to_local_if_aware. simpl.
    by destruct (negb (bool_decide (rows = []))).
  - by destruct aw.
Qed.

Lemma bind_locals_Ok_inv ctx cd l :
  bind_locals ctx cd = Ok l →
  ∃ s e,
    dict_get cd "start_date_time" = VDatetime s ∧
    dict_get cd "end_date_time" = VDatetime e ∧
    l = {| l_access_type := dict_get cd "access_type";
           l_allowed_students := dict_get cd "allowed_students";
           l_start := localize ctx s; l_end := localize ctx e |}.
Proof.
  unfold bind_locals. intros H.
  apply bind_Ok in H as (v1 & H1 & H).
  apply bind_Ok in H as (v2 & H2 & H).
  apply bind_Ok in H as (s' & Hs' & H).
  apply bind_Ok in H as (e' & He' & [= <-]).
  destruct v1; try done. destruct v2; try done.
  simpl in Hs', He'. injection Hs' as ->. injection He' as ->.
  apply to_local_if_aware_Ok_datetime in H1 as (s & -> & ->).
  apply to_local_if_aware_Ok_datetime in H2 as (e & -> & ->).
  eauto.
Qed.

Lemma bind_locals_fields ctx cd l :
  bind_locals ctx cd = Ok l →
  l_access_type l = dict_get cd "access_type" ∧
  l_allowed_students l = dict_get cd "allowed_students".
Proof. by intros (s & e & _ & _ & ->)%bind_locals_Ok_inv. Qed.

(** Once the conversion and the type check have succeeded, [clean] is the
    run of its rules on the values they bound. *)
Lemma clean_after_bind ctx cd l :
  bind_locals ctx cd = Ok l →
  clean ctx cd = (run_checks (rule_checks ctx l);; Ok cd).
Proof. intros Hl. by rewrite clean_unfold, Hl. Qed.

(** ** Several rules violated at once *)

(** C1, as the specification words it, fails: with no student selected
    and a window that ends before it starts, the ordering rule fails on its
    own, yet its message is not among the reported errors. *)
Lemma two_failures_one_report : ¬ reports_every_failure ctx_sample cd_two_failures.
Proof.
  intros H.
  assert (msg_range ∈ errors_of (clean ctx_sample cd_two_failures)) as Hin.
  { eapply H.
    - apply (bind_locals_datetimes ctx_sample cd_two_failures); reflexivity.
    - apply (bool_decide_unpack _). vm_compute. exact I. }
  apply (bool_decide_eq_false_1
           (msg_range ∈ errors_of (clean ctx_sample cd_two_failures)));
    [vm_compute; reflexivity | exact Hin].
Qed.

(** C1, amended: when rules fail together after a successful type check,
    [clean] reports exactly one error, the one of the first failing rule in
    evaluation order; whatever the later rules would have raised is not
    reported. *)
Theorem clean_reports_first_failure ctx cd l pre msg post :
  bind_locals ctx cd = Ok l →
  rule_checks ctx l = pre ++ Invalid msg :: post →
  Forall (λ c, c = Ok tt) pre →
  errors_of (clean ctx cd) = [msg].
Proof.
  intros Hl Hrules Hpre.
  rewrite clean_unfold, Hl.
  change (errors_of (run_checks (rule_checks ctx l);; Ok cd) = [msg]).
  by rewrite Hrules, run_checks_first_failure.
Qed.

Lemma clean_reports_first_failure_witness :
  bind_locals ctx_sample cd_two_failures
  = Ok {| l_access_type := VStr "specific_students";
          l_allowed_students := VQuerySet [];
          l_start := localize ctx_sample (dt_add (local_now ctx_sample) (2 * us_per_hour));
          l_end := localize ctx_sample (dt_add (local_now ctx_sample) us_per_hour) |} ∧
  errors_of (clean ctx_sample cd_two_failures) = [msg_no_participants].
Proof.
  assert (bind_locals ctx_sample cd_two_failures
          = Ok {| l_access_type := VStr "specific_students";
                  l_allowed_students := VQuerySet [];
                  l_start := localize ctx_sample
                               (dt_add (local_now ctx_sample) (2 * us_per_hour));
                  l_end := localize ctx_sample
                             (dt_add (local_now ctx_sample) us_per_hour) |}) as Hl.
  { apply (bind_locals_datetimes ctx_sample cd_two_failures); reflexivity. }
  split; [exact Hl|].
  apply (clean_reports_first_failure ctx_sample cd_two_failures _
           [Ok tt] msg_no_participants
           [Invalid msg_range; Ok tt; Ok tt; Ok tt; Ok tt] Hl).
  - vm_compute. reflexivity.
  - repeat constructor.
Defined.

(** ** The conversion of the two times *)




(** ** No student selected *)

(** C3, as the specification words it, fails: when the start time is
    missing, a submission limited to specific students with none selected
    is rejected for the missing time alone, and no error of kind
    [NoParticipants] is reported. *)
Lemma no_students_but_type_error :
  dict_get cd_no_start_no_students "access_type" = VStr "specific_students" ∧
  dict_get cd_no_start_no_students "allowed_students" = VQuerySet [] ∧
  clean ctx_sample cd_no_start_no_students = Invalid msg_start_invalid ∧
  ¬ ∃ msg, msg ∈ errors_of (clean ctx_sample cd_no_start_no_students) ∧
           kind_of msg = Some NoParticipants.
Proof.
  assert (clean ctx_sample cd_no_start_no_students = Invalid msg_start_invalid)
    as Hclean by (vm_compute; reflexivity).
  split; [reflexivity|]. split; [reflexivity|]. split; [exact Hclean|].
  rewrite Hclean. intros (msg & Hin & Hkind).
  apply list_elem_of_singleton in Hin as ->.
  vm_compute in Hkind. discriminate.
Qed.

(** C3, amended: for every candidate whose start and end pass the
    conversion and the type check, with access type [specific_students]
    and no student selected, validation rejects with the [NoParticipants]
    error of the participant check, whatever the other fields hold. *)
Theorem no_students_selected_rejected ctx cd l :
  bind_locals ctx cd = Ok l →
  dict_get cd "access_type" = VStr "specific_students" →
  dict_get cd "allowed_students" = VNone ∨
    dict_get cd "allowed_students" = VQuerySet [] →
  clean ctx cd = Invalid msg_no_participants ∧
  kind_of msg_no_participants = Some NoParticipants.
Proof.
  intros Hl Hacc Hallowed. split; [|by vm_compute].
  destruct (bind_locals_fields _ _ _ Hl) as [Ha Hal].
  rewrite (clean_after_bind _ _ _ Hl). simpl.
  unfold check_students_available, check_participants.
  rewrite Ha, Hal, Hacc, specific_is_not_all, py_eq_str_refl.
  by destruct Hallowed as [-> | ->].
Qed.

Lemma no_students_selected_rejected_witness :
  clean ctx_sample cd_two_failures = Invalid msg_no_participants ∧
  kind_of msg_no_participants = Some NoParticipants.
Proof.
  apply (no_students_selected_rejected ctx_sample cd_two_failures
           {| l_access_type := VStr "specific_students";
              l_allowed_students := VQuerySet [];
              l_start := localize ctx_sample
                           (dt_add (local_now ctx_sample) (2 * us_per_hour));
              l_end := localize ctx_sample
                         (dt_add (local_now ctx_sample) us_per_hour) |});
    [ apply (bind_locals_datetimes ctx_sample cd_two_failures); reflexivity
    | reflexivity | right; reflexivity ].
Defined.

(** ** A window that does not start before it ends *)




(** ** The calendar: years do not go back, and advance one day at a time *)

Lemma year_of_days_succ n :
  year_of_days n ≤ year_of_days (n + 1) ≤ year_of_days n + 1.
Proof.
  unfold year_of_days. cbv zeta.
  repeat match goal with
         | |- context [ ?a =? ?b ] => destruct (Z.eqb_spec a b)
         end; cbn [orb];
    Z.to_euclidean_division_equations; lia.
Qed.

Lemma day_of_later_instant w delta :
  0 ≤ delta ≤ us_per_day →
  (w + delta) / us_per_day = w / us_per_day ∨
  (w + delta) / us_per_day = w / us_per_day + 1.
Proof. unfold us_per_day. intros H. Z.to_euclidean_division_equations. lia. Qed.

Lemma year_within_a_day d d' delta :
  0 ≤ delta ≤ us_per_day → wall d' = wall d + delta →
  year d ≤ year d' ≤ year d + 1.
Proof.
  intros Hdelta Hwall. unfold year. rewrite Hwall.
  destruct (day_of_later_instant (wall d) delta Hdelta) as [-> | ->];
    [lia | apply year_of_days_succ].
Qed.

Lemma check_year_ok ctx d msg :
  year (local_now ctx) ≤ year d ≤ year (local_now ctx) + 10 →
  check_year ctx d msg = Ok tt.
Proof.
  intros H. unfold check_year.
  replace (year d <? year (local_now ctx)) with false by (symmetry; lia).
  replace (year d >? year (local_now ctx) + 10) with false by (symmetry; lia).
  done.
Qed.

Lemma check_ordering_Ok a b :
  check_ordering a b = Ok tt ↔ dt_compare a b = Ok Lt.
Proof.
  unfold check_ordering, dt_ge.
  destruct (dt_compare a b) as [[]| |]; simpl; split; done.
Qed.

Lemma check_not_past_Ok_iff ctx s :
  check_not_past ctx s = Ok tt ↔
  dt_compare s (local_now ctx) = Ok Eq ∨ dt_compare s (local_now ctx) = Ok Gt.
Proof.
  unfold check_not_past, dt_lt.
  destruct (dt_compare s (local_now ctx)) as [[]| |]; simpl;
    split; try done; try (by intros [|]); auto.
Qed.

(** ** The rules on the values the conversion binds *)

(** An aware value bound by the conversion carries the current zone. *)
Lemma bound_aware ctx cd l :
  bind_locals ctx cd = Ok l →
  (tzinfo (l_start l) ≠ None →
   ∃ z, tzinfo (l_start l) = Some z ∧ tz_key z = current_timezone ctx) ∧
  (tzinfo (l_end l) ≠ None →
   ∃ z, tzinfo (l_end l) = Some z ∧ tz_key z = current_timezone ctx).
Proof.
  intros (s & e & _ & _ & ->)%bind_locals_Ok_inv. simpl.
  split; intros H.
  - destruct (tzinfo s) as [z|] eqn:Hz;
      [by eapply localize_in_current_zone | by rewrite localize_naive in H].
  - destruct (tzinfo e) as [z|] eqn:Hz;
      [by eapply localize_in_current_zone | by rewrite localize_naive in H].
Qed.

(** So the bound start and end, and now, are ordered by their wall
    clocks. *)
Lemma bound_compare ctx cd l :
  bind_locals ctx cd = Ok l →
  tzinfo (l_start l) ≠ None → tzinfo (l_end l) ≠ None →
  dt_compare (l_start l) (l_end l) = Ok (wall (l_start l) ?= wall (l_end l)).
Proof.
  intros [Hs He]%bound_aware Has Hae.
  destruct (Hs Has) as (zs & Hzs & Hks), (He Hae) as (ze & Hze & Hke).
  apply (same_zone_compare _ _ zs ze); congruence.
Qed.

Lemma bound_compare_now ctx cd l :
  bind_locals ctx cd = Ok l → tzinfo (l_start l) ≠ None →
  dt_compare (l_start l) (local_now ctx)
  = Ok (wall (l_start l) ?= wall (local_now ctx)).
Proof.
  intros [Hs _]%bound_aware Has.
  destruct (Hs Has) as (zs & Hzs & Hks).
  destruct (local_now_in_current_zone ctx) as (zn & Hzn & Hkn).
  apply (same_zone_compare _ _ zs zn); congruence.
Qed.

Lemma bound_converted ctx cd l :
  bind_locals ctx cd = Ok l →
  ∃ s e,
    dict_get cd "start_date_time" = VDatetime s ∧
    dict_get cd "end_date_time" = VDatetime e ∧
    converted ctx s (l_start l) ∧ converted ctx e (l_end l) ∧
    (tzinfo (l_start l) = None ↔ tzinfo s = None) ∧
    (tzinfo (l_end l) = None ↔ tzinfo e = None).
Proof.
  intros (s & e & Hs & He & ->)%bind_locals_Ok_inv. simpl.
  exists s, e. split_and!; auto using localize_converted, tzinfo_localize.
Qed.

Lemma run_checks_Ok_inv cs : run_checks cs = Ok tt → Forall (λ c, c = Ok tt) cs.
Proof.
  induction cs as [|c cs IH]; simpl; [constructor|].
  destruct c as [[]| |]; simpl; [|done..].
  intros H. constructor; auto.
Qed.

Lemma clean_Ok_inv ctx cd cd' :
  clean ctx cd = Ok cd' →
  ∃ l, bind_locals ctx cd = Ok l ∧ Forall (λ c, c = Ok tt) (rule_checks ctx l).
Proof.
  rewrite clean_unfold. intros H.
  apply bind_Ok in H as (l & Hl & H).
  apply bind_Ok in H as ([] & Hrun & _).
  exists l. auto using run_checks_Ok_inv.
Qed.

Lemma dt_compare_aware a b c :
  dt_compare a b = Ok c → tzinfo a = None ↔ tzinfo b = None.
Proof. unfold dt_compare. by destruct (tzinfo a), (tzinfo b). Qed.

Lemma check_not_past_aware ctx s r :
  check_not_past ctx s = Ok r → tzinfo s ≠ None.
Proof.
  unfold check_not_past, dt_lt. intros H Hs.
  destruct (dt_compare s (local_now ctx)) as [c| |] eqn:Hc; [|done..].
  apply dt_compare_aware in Hc.
  destruct (local_now_in_current_zone ctx) as (z & Hz & _).
  apply Hc in Hs. congruence.
Qed.

Lemma check_year_Ok ctx d msg :
  check_year ctx d msg = Ok tt ↔
  year (local_now ctx) ≤ year d ≤ year (local_now ctx) + 10.
Proof.
  split; [|apply check_year_ok].
  unfold check_year. intros H%raise_if_Ok. lia.
Qed.

Lemma check_year_out ctx d msg :
  year d < year (local_now ctx) ∨ year (local_now ctx) + 10 < year d →
  check_year ctx d msg
  = Invalid (msg (year (local_now ctx)) (year (local_now ctx) + 10)).
Proof.
  intros H. unfold check_year.
  replace (_ || _) with true; [done|].
  symmetry. apply orb_true_iff. lia.
Qed.

Lemma py_eq_str_true v s : py_eq_str v s = true → v = VStr s.
Proof.
  destruct v as [|s'| | | |]; simpl; try done.
  by intros ->%String.eqb_eq.
Qed.

Lemma check_students_available_Ok_iff ctx a :
  check_students_available ctx a = Ok tt ↔
  (a = VStr "all_students" → student_count ctx 0%nat ≠ 0).
Proof.
  unfold check_students_available.
  destruct (py_eq_str a "all_students") eqn:Ha.
  - apply py_eq_str_true in Ha as ->. split.
    + intros H%raise_if_Ok _. lia.
    + intros H. by rewrite (proj2 (Z.eqb_neq _ _) (H eq_refl)).
  - split; [|done]. intros _ ->. by rewrite py_eq_str_refl in Ha.
Qed.

Lemma check_participants_Ok ctx a al :
  check_participants ctx a al = Ok tt →
  (a = VStr "specific_students" → truthy al = true) ∧
  (a = VStr "all_students" → student_count ctx 1%nat ≠ 0).
Proof.
  unfold check_participants. intros H. split; intros ->.
  - rewrite py_eq_str_refl in H. by destruct (truthy al).
  - rewrite all_is_not_specific, py_eq_str_refl in H.
    apply raise_if_Ok in H. lia.
Qed.

Lemma check_participants_selected ctx a al :
  (a = VStr "specific_students" → ∃ rows, al = VQuerySet rows ∧ rows ≠ []) →
  (a = VStr "all_students" → student_count ctx 1%nat ≠ 0) →
  check_participants ctx a al = Ok tt.
Proof.
  intros Hspec Hall. unfold check_participants.
  destruct (py_eq_str a "specific_students") eqn:Ha.
  - apply py_eq_str_true in Ha.
    destruct (Hspec Ha) as ([|row rows] & -> & Hne); done.
  - destruct (py_eq_str a "all_students") eqn:Hb; [|done].
    apply py_eq_str_true in Hb.
    by rewrite (proj2 (Z.eqb_neq _ _) (Hall Hb)).
Qed.

Ltac split_rules H :=
  unfold rule_checks in H;
  apply Forall_cons in H as [?Havail H];
  apply Forall_cons in H as [?Hpart H];
  apply Forall_cons in H as [?Hord H];
  apply Forall_cons in H as [?Hys H];
  apply Forall_cons in H as [?Hye H];
  apply Forall_cons in H as [?Hpast _].

(** What the rules require of the bound values is enough for acceptance. *)
Lemma accepted_when_rules_hold ctx cd l :
  bind_locals ctx cd = Ok l →
  tzinfo (l_start l) ≠ None → tzinfo (l_end l) ≠ None →
  wall (local_now ctx) ≤ wall (l_start l) < wall (l_end l) →
  year (local_now ctx) ≤ year (l_start l) ≤ year (local_now ctx) + 10 →
  year (local_now ctx) ≤ year (l_end l) ≤ year (local_now ctx) + 10 →
  (dict_get cd "access_type" = VStr "specific_students" →
     ∃ rows, dict_get cd "allowed_students" = VQuerySet rows ∧ rows ≠ []) →
  (dict_get cd "access_type" = VStr "all_students" →
     student_count ctx 0%nat ≠ 0 ∧ student_count ctx 1%nat ≠ 0) →
  clean ctx cd = Ok cd.
Proof.
  intros Hl Has Hae Hwin Hys Hye Hspec Hall.
  destruct (bind_locals_fields _ _ _ Hl) as [Ha Hal].
  rewrite (clean_after_bind _ _ _ Hl).
  rewrite (run_checks_all_ok (rule_checks ctx l)); [done|].
  unfold rule_checks. rewrite Ha, Hal.
  repeat apply Forall_cons_2; [| | | | | | |constructor].
  - apply check_students_available_Ok_iff. intros H. by apply Hall.
  - apply check_participants_selected; [done|]. intros H. by apply Hall.
  - apply check_ordering_Ok. rewrite (bound_compare _ _ _ Hl Has Hae).
    f_equal. apply Z.compare_lt_iff. lia.
  - by apply check_year_ok.
  - by apply check_year_ok.
  - apply check_not_past_Ok_iff. rewrite (bound_compare_now _ _ _ Hl Has).
    destruct (Z.compare_spec (wall (l_start l)) (wall (local_now ctx)));
      [by left | lia | by right].
  - done.
Qed.

(** ** Scenario A *)

Lemma scenario_A_lookup ctx others :
  dict_get (scenario_A ctx others) "start_date_time"
    = VDatetime (dt_add (local_now ctx) us_per_hour) ∧
  dict_get (scenario_A ctx others) "end_date_time"
    = VDatetime (dt_add (local_now ctx) (2 * us_per_hour)) ∧
  dict_get (scenario_A ctx others) "access_type" = VStr "specific_students" ∧
  dict_get (scenario_A ctx others) "allowed_students" = VQuerySet ["s1"].
Proof. unfold dict_get, scenario_A. by simplify_map_eq. Qed.

(** A window that the conversion places one and two hours after now on
    the local wall clock, for a non-empty selection of students, passes
    every rule. *)
Lemma window_after_now_accepted ctx cd l rows :
  bind_locals ctx cd = Ok l →
  tzinfo (l_start l) ≠ None → tzinfo (l_end l) ≠ None →
  wall (l_start l) = wall (local_now ctx) + us_per_hour →
  wall (l_end l) = wall (local_now ctx) + 2 * us_per_hour →
  dict_get cd "access_type" = VStr "specific_students" →
  dict_get cd "allowed_students" = VQuerySet rows → rows ≠ [] →
  clean ctx cd = Ok cd.
Proof.
  intros Hl Has Hae Hws Hwe Hacc Hal Hrows.
  apply (accepted_when_rules_hold ctx cd l); try done.
  - unfold us_per_hour in *. lia.
  - pose proof (year_within_a_day (local_now ctx) (l_start l) us_per_hour).
    unfold us_per_hour, us_per_day in *. lia.
  - pose proof (year_within_a_day (local_now ctx) (l_end l) (2 * us_per_hour)).
    unfold us_per_hour, us_per_day in *. lia.
  - intros _. eauto.
  - rewrite Hacc. intros H. by vm_compute in H.
Qed.

(** Scenario A computed as the code computes now, on the local wall
    clock, is accepted at every clock reading, in every zone. *)
Lemma scenario_A_on_the_local_clock ctx others :
  clean ctx (scenario_A ctx others) = Ok (scenario_A ctx others).
Proof.
  destruct (scenario_A_lookup ctx others) as (Hs & He & Hacc & Hal).
  destruct (local_now_in_current_zone ctx) as (z & Hz & Hkey).
  assert (∀ delta, localize ctx (dt_add (local_now ctx) delta)
                   = dt_add (local_now ctx) delta) as Hloc.
  { intros delta. unfold localize, dt_add, astimezone. cbn [tzinfo].
    rewrite Hz. by rewrite bool_decide_eq_true_2. }
  pose proof (bind_locals_datetimes ctx _ _ _ Hs He) as Hl.
  rewrite !Hloc in Hl.
  apply (window_after_now_accepted ctx _ _ ["s1"] Hl); try done;
    cbn [l_start l_end dt_add tzinfo]; by rewrite Hz.
Qed.




(** ** Which messages [clean] can raise, and when *)

Lemma to_local_if_aware_not_Invalid ctx v m : to_local_if_aware ctx v ≠ Invalid m.
Proof.
  unfold to_local_if_aware.
  destruct v as [|str|n|d|rows|aw]; simpl; try done.
  - by destruct (negb (String.eqb str "")).
  - by destruct (negb (n =? 0)).
  - by destruct (tzinfo d).
  - by destruct (negb (bool_decide (rows = []))).
  - by destruct aw.
Qed.

Lemma bind_locals_Invalid ctx cd m :
  bind_locals ctx cd = Invalid m → m = msg_start_invalid ∨ m = msg_end_invalid.
Proof.
  unfold bind_locals.
  destruct (to_local_if_aware ctx (dict_get cd "start_date_time")) as [v1| |] eqn:H1;
    simpl; [| by apply to_local_if_aware_not_Invalid in H1 | done].
  destruct (to_local_if_aware ctx (dict_get cd "end_date_time")) as [v2| |] eqn:H2;
    simpl; [| by apply to_local_if_aware_not_Invalid in H2 | done].
  destruct v1; simpl; try (intros [= <-]; by left).
  destruct v2; simpl; intros [= <-]; by right.
Qed.

Lemma check_students_available_Invalid ctx a m :
  check_students_available ctx a = Invalid m →
  m = msg_all_students_unavailable ∧ student_count ctx 0%nat = 0.
Proof.
  unfold check_students_available.
  destruct (py_eq_str a _); [|done].
  intros [Hc ->]%raise_if_Invalid. split; [done | lia].
Qed.

Lemma check_students_available_Ok ctx a :
  check_students_available ctx a = Ok tt →
  py_eq_str a "all_students" = true → student_count ctx 0%nat ≠ 0.
Proof.
  unfold check_students_available. intros H Ha. rewrite Ha in H.
  apply raise_if_Ok in H. lia.
Qed.

Lemma check_participants_Invalid ctx a al m :
  check_participants ctx a al = Invalid m →
  m = msg_no_participants ∨
  (m = msg_no_students ∧ py_eq_str a "all_students" = true ∧
   student_count ctx 1%nat = 0).
Proof.
  unfold check_participants.
  destruct (py_eq_str a "specific_students").
  - destruct (negb (truthy al)); simpl.
    + intros [= <-]. by left.
    + destruct al; simpl; try done; intros [_ ->]%raise_if_Invalid; by left.
  - destruct (py_eq_str a "all_students"); [|done].
    intros [Hc ->]%raise_if_Invalid. right.
    split; [done|]. split; [done | lia].
Qed.

Lemma check_ordering_Invalid s e m : check_ordering s e = Invalid m → m = msg_range.
Proof.
  unfold check_ordering, dt_ge, dt_compare.
  destruct (tzinfo s), (tzinfo e); simpl; try done;
    try case_bool_decide; simpl; by intros [_ ->]%raise_if_Invalid.
Qed.

Lemma check_year_Invalid ctx d msg m :
  check_year ctx d msg = Invalid m →
  m = msg (year (local_now ctx)) (year (local_now ctx) + 10).
Proof. unfold check_year. by intros [_ ->]%raise_if_Invalid. Qed.

Lemma check_not_past_Invalid ctx s m : check_not_past ctx s = Invalid m → m = msg_past.
Proof.
  unfold check_not_past, dt_lt, dt_compare.
  destruct (tzinfo s), (tzinfo (local_now ctx)); simpl; try done;
    try case_bool_decide; simpl; by intros [_ ->]%raise_if_Invalid.
Qed.

(** Every [ValidationError] of [clean] carries one of its nine reachable
    messages; the second message about an empty student table requires the
    table to be non-empty at the first query and empty at the second. *)
Lemma clean_Invalid_inv ctx cd m :
  clean ctx cd = Invalid m →
  m = msg_start_invalid ∨ m = msg_end_invalid ∨
  m = msg_all_students_unavailable ∨ m = msg_no_participants ∨
  (m = msg_no_students ∧ student_count ctx 0%nat ≠ 0 ∧ student_count ctx 1%nat = 0) ∨
  m = msg_range ∨
  m = msg_start_year (year (local_now ctx)) (year (local_now ctx) + 10) ∨
  m = msg_end_year (year (local_now ctx)) (year (local_now ctx) + 10) ∨
  m = msg_past.
Proof.
  rewrite clean_unfold.
  destruct (bind_locals ctx cd) as [l| |] eqn:Hl; simpl; [| |done].
  2:{ intros [= <-]. apply bind_locals_Invalid in Hl. tauto. }
  destruct (check_students_available ctx (l_access_type l)) as [[]| |] eqn:H1;
    simpl; [| |done].
  2:{ intros [= <-]. apply check_students_available_Invalid in H1. tauto. }
  destruct (check_participants ctx (l_access_type l) (l_allowed_students l))
    as [[]| |] eqn:H2; simpl; [| |done].
  2:{ intros [= <-]. apply check_participants_Invalid in H2 as [->|(-> & Ha & Hc)];
        [tauto|].
      pose proof (check_students_available_Ok _ _ H1 Ha). tauto. }
  destruct (check_ordering (l_start l) (l_end l)) as [[]| |] eqn:H3;
    simpl; [| |done].
  2:{ intros [= <-]. apply check_ordering_Invalid in H3. tauto. }
  destruct (check_year ctx (l_start l) msg_start_year) as [[]| |] eqn:H4;
    simpl; [| |done].
  2:{ intros [= <-]. apply check_year_Invalid in H4. tauto. }
  destruct (check_year ctx (l_end l) msg_end_year) as [[]| |] eqn:H5;
    simpl; [| |done].
  2:{ intros [= <-]. apply check_year_Invalid in H5. tauto. }
  destruct (check_not_past ctx (l_start l)) as [[]| |] eqn:H6;
    simpl; [done| |done].
  intros [= <-]. apply check_not_past_Invalid in H6. tauto.
Qed.

Lemma prefix_append p s : String.prefix p (p +:+ s) = true.
Proof.
  induction p as [|c p IH]; simpl; [by destruct s|].
  by destruct (Ascii.ascii_dec c c).
Qed.

Lemma msg_start_year_prefix a b :
  String.prefix "Start date must be between " (msg_start_year a b) = true.
Proof. apply prefix_append. Qed.

Lemma msg_end_year_prefix a b :
  String.prefix "End date must be between " (msg_end_year a b) = true.
Proof. apply prefix_append. Qed.

(** The taxonomy covers every message [clean] raises. *)
Lemma clean_Invalid_has_kind ctx cd m :
  clean ctx cd = Invalid m → is_Some (kind_of m).
Proof.
  intros H. apply clean_Invalid_inv in H.
  destruct H as [->|[->|[->|[->|[(-> & _)|[->|[H|[H| ->]]]]]]]];
    [vm_compute; eauto.. | | | vm_compute; eauto].
  - rewrite H. unfold kind_of. rewrite msg_start_year_prefix.
    repeat (case_bool_decide; simpl; eauto).
  - rewrite H. unfold kind_of. rewrite msg_end_year_prefix, orb_true_r.
    repeat (case_bool_decide; simpl; eauto).
Qed.

(** The [else] branch that raises the message about required times is
    never taken. *)
Lemma required_never_raised ctx cd : clean ctx cd ≠ Invalid msg_required.
Proof.
  intros H. apply clean_Invalid_inv in H.
  destruct H as [H|[H|[H|[H|[(H & _)|[H|[H|[H|H]]]]]]]];
    [by vm_compute in H.. | | | by vm_compute in H].
  - pose proof (msg_start_year_prefix (year (local_now ctx))
                  (year (local_now ctx) + 10)) as Hp.
    rewrite <-H in Hp. by vm_compute in Hp.
  - pose proof (msg_end_year_prefix (year (local_now ctx))
                  (year (local_now ctx) + 10)) as Hp.
    rewrite <-H in Hp. by vm_compute in Hp.
Qed.

(** ** A missing start or end time *)

(** C6, evaluated on the code: when the start or the end time is missing
    (and the other one is missing too or is a datetime), [clean] rejects
    at the type check, with the message of the missing field and the kind
    [InvalidType]; the message about required times is not raised. *)
Theorem missing_time_rejected_by_type_check ctx cd :
  dict_get cd "start_date_time" = VNone ∨
    (∃ s, dict_get cd "start_date_time" = VDatetime s) →
  dict_get cd "end_date_time" = VNone ∨
    (∃ e, dict_get cd "end_date_time" = VDatetime e) →
  dict_get cd "start_date_time" = VNone ∨ dict_get cd "end_date_time" = VNone →
  ∃ msg,
    clean ctx cd = Invalid msg ∧
    msg = (if bool_decide (dict_get cd "start_date_time" = VNone)
           then msg_start_invalid else msg_end_invalid) ∧
    kind_of msg = Some InvalidType ∧
    msg ≠ msg_required.
Proof.
  intros Hs He Hmissing. rewrite clean_unfold. unfold bind_locals.
  destruct Hs as [Hs | [s Hs]]; rewrite Hs.
  - exists msg_start_invalid.
    destruct He as [-> | [e ->]];
      rewrite ?to_local_if_aware_datetime, ?to_local_if_aware_None;
      by vm_compute.
  - exists msg_end_invalid.
    destruct Hmissing as [Hs' | He']; [congruence|].
    rewrite He', to_local_if_aware_datetime, to_local_if_aware_None.
    by vm_compute.
Qed.

Lemma missing_time_rejected_by_type_check_witness :
  dict_get cd_no_start "start_date_time" = VNone ∧
  ∃ msg,
    clean ctx_sample cd_no_start = Invalid msg ∧
    msg = (if bool_decide (dict_get cd_no_start "start_date_time" = VNone)
           then msg_start_invalid else msg_end_invalid) ∧
    kind_of msg = Some InvalidType ∧
    msg ≠ msg_required.
Proof.
  split; [reflexivity|].
  apply (missing_time_rejected_by_type_check ctx_sample cd_no_start).
  - left; reflexivity.
  - right. exists (dt_add (local_now ctx_sample) (2 * us_per_hour)). reflexivity.
  - left; reflexivity.
Defined.

(** ** What an accepted call returns *)

(** C8: on acceptance [clean] returns the dictionary it received from
    [super().clean()], every field as it was; in particular the stored
    start and end times are the original ones, not their conversions to
    the local zone. *)
Theorem clean_returns_cleaned_data ctx cd cd' :
  clean ctx cd = Ok cd' →
  cd' = cd ∧
  (∀ key, cd' !! key = cd !! key) ∧
  dict_get cd' "start_date_time" = dict_get cd "start_date_time" ∧
  dict_get cd' "end_date_time" = dict_get cd "end_date_time".
Proof.
  rewrite clean_unfold. intros H.
  apply bind_Ok in H as (l & _ & H).
  apply bind_Ok in H as ([] & _ & [= <-]).
  done.
Qed.

Lemma clean_returns_cleaned_data_witness :
  clean ctx_sample cd_utc = Ok cd_utc ∧
  to_local_if_aware ctx_sample (dict_get cd_utc "start_date_time")
    ≠ Ok (dict_get cd_utc "start_date_time") ∧
  cd_utc = cd_utc ∧
  (∀ key, cd_utc !! key = cd_utc !! key) ∧
  dict_get cd_utc "start_date_time" = dict_get cd_utc "start_date_time" ∧
  dict_get cd_utc "end_date_time" = dict_get cd_utc "end_date_time".
Proof.
  assert (clean ctx_sample cd_utc = Ok cd_utc) as Hclean.
  { apply (clean_accepts ctx_sample cd_utc dt_start_utc dt_end_utc);
      [reflexivity | reflexivity | vm_compute; reflexivity]. }
  split; [exact Hclean|]. split; [by vm_compute|].
  exact (clean_returns_cleaned_data ctx_sample cd_utc cd_utc Hclean).
Defined.

(** ** The second test of the student table *)

(** C9: when the student-count query gives the same answer at both of its
    executions, the second message about an empty student table is never
    raised. *)
Theorem second_empty_table_message_unreachable ctx cd :
  student_count ctx 0%nat = student_count ctx 1%nat →
  clean ctx cd ≠ Invalid msg_no_students ∧
  msg_no_students ∉ errors_of (clean ctx cd).
Proof.
  intros Hsame.
  assert (clean ctx cd ≠ Invalid msg_no_students) as Hne.
  { intros H. apply clean_Invalid_inv in H.
    destruct H as [H|[H|[H|[H|[(_ & H0 & H1)|[H|[H|[H|H]]]]]]]];
      [by vm_compute in H.. | | by vm_compute in H | | | by vm_compute in H].
    - congruence.
    - pose proof (msg_start_year_prefix (year (local_now ctx))
                    (year (local_now ctx) + 10)) as Hp.
      rewrite <-H in Hp. by vm_compute in Hp.
    - pose proof (msg_end_year_prefix (year (local_now ctx))
                    (year (local_now ctx) + 10)) as Hp.
      rewrite <-H in Hp. by vm_compute in Hp. }
  split; [exact Hne|].
  destruct (clean ctx cd) as [|m|]; simpl; [set_solver| |set_solver].
  intros Hin%list_elem_of_singleton. congruence.
Qed.

Lemma second_empty_table_message_unreachable_witness :
  clean ctx_no_students cd_all_students = Invalid msg_all_students_unavailable ∧
  clean ctx_no_students cd_all_students ≠ Invalid msg_no_students ∧
  msg_no_students ∉ errors_of (clean ctx_no_students cd_all_students).
Proof.
  split; [by vm_compute|].
  apply (second_empty_table_message_unreachable ctx_no_students cd_all_students).
  reflexivity.
Defined.

(** Only a student table that empties between the two queries makes the
    second message appear. *)
Lemma second_empty_table_message_needs_a_change :
  clean ctx_students_vanish cd_all_students = Invalid msg_no_students.
Proof. by vm_compute. Qed.

(** ** An access type that is neither of the two *)

(** C10: when the access type is neither [all_students] nor
    [specific_students], both participant checks pass without looking at
    the selected students or at the student table, and a candidate whose
    times pass the type, ordering, year and past-date checks is accepted,
    even with no participant at all. *)
Theorem other_access_type_skips_participant_checks ctx cd s e :
  dict_get cd "start_date_time" = VDatetime s →
  dict_get cd "end_date_time" = VDatetime e →
  dict_get cd "access_type" ≠ VStr "all_students" →
  dict_get cd "access_type" ≠ VStr "specific_students" →
  check_ordering (localize ctx s) (localize ctx e) = Ok tt →
  check_year ctx (localize ctx s) msg_start_year = Ok tt →
  check_year ctx (localize ctx e) msg_end_year = Ok tt →
  check_not_past ctx (localize ctx s) = Ok tt →
  check_students_available ctx (dict_get cd "access_type") = Ok tt ∧
  check_participants ctx (dict_get cd "access_type")
                     (dict_get cd "allowed_students") = Ok tt ∧
  clean ctx cd = Ok cd.
Proof.
  intros Hs He Hall Hspec Hord Hys Hye Hpast.
  assert (check_students_available ctx (dict_get cd "access_type") = Ok tt) as H1.
  { unfold check_students_available. by rewrite py_eq_str_ne. }
  assert (check_participants ctx (dict_get cd "access_type")
            (dict_get cd "allowed_students") = Ok tt) as H2.
  { unfold check_participants. by rewrite !py_eq_str_ne. }
  split; [exact H1|]. split; [exact H2|].
  rewrite (clean_datetimes _ _ s e Hs He). simpl.
  by rewrite H1, H2, Hord, Hys, Hye, Hpast.
Qed.

Lemma other_access_type_skips_participant_checks_witness :
  dict_get cd_no_access_type "access_type" = VNone ∧
  dict_get cd_no_access_type "allowed_students" = VNone ∧
  student_count ctx_no_students 0%nat = 0 ∧
  check_students_available ctx_no_students
    (dict_get cd_no_access_type "access_type") = Ok tt ∧
  check_participants ctx_no_students
    (dict_get cd_no_access_type "access_type")
    (dict_get cd_no_access_type "allowed_students") = Ok tt ∧
  clean ctx_no_students cd_no_access_type = Ok cd_no_access_type.
Proof.
  split; [reflexivity|]. split; [reflexivity|]. split; [reflexivity|].
  apply (other_access_type_skips_participant_checks
           ctx_no_students cd_no_access_type
           (dt_add (local_now ctx_sample) us_per_hour)
           (dt_add (local_now ctx_sample) (2 * us_per_hour)));
    try reflexivity; by vm_compute.
Defined.

(** * Further properties of [clean] *)

(** ** What acceptance guarantees, and what guarantees acceptance *)

(** X1: a candidate that [clean] accepts has aware start and end times,
    and the values the conversion binds for them satisfy now <= start < end
    on the wall clock of the current zone, have their years between the
    current year and ten years later, and come with a non-empty selection
    when access is limited to specific students, and with a non-empty
    student table at both queries when it is open to all students. *)
Theorem accepted_satisfies_rules ctx cd cd' :
  clean ctx cd = Ok cd' →
  ∃ s e l,
    dict_get cd "start_date_time" = VDatetime s ∧ tzinfo s ≠ None ∧
    dict_get cd "end_date_time" = VDatetime e ∧ tzinfo e ≠ None ∧
    bind_locals ctx cd = Ok l ∧
    converted ctx s (l_start l) ∧ converted ctx e (l_end l) ∧
    wall (local_now ctx) ≤ wall (l_start l) < wall (l_end l) ∧
    year (local_now ctx) ≤ year (l_start l) ≤ year (local_now ctx) + 10 ∧
    year (local_now ctx) ≤ year (l_end l) ≤ year (local_now ctx) + 10 ∧
    (dict_get cd "access_type" = VStr "specific_students" →
       truthy (dict_get cd "allowed_students") = true) ∧
    (dict_get cd "access_type" = VStr "all_students" →
       student_count ctx 0%nat ≠ 0 ∧ student_count ctx 1%nat ≠ 0).
Proof.
  intros H. apply clean_Ok_inv in H as (l & Hl & H).
  split_rules H.
  destruct (bind_locals_fields _ _ _ Hl) as [Ha Hal]. rewrite Ha, ?Hal in *.
  pose proof (check_not_past_aware _ _ _ Hpast) as Has.
  apply check_ordering_Ok in Hord.
  assert (tzinfo (l_end l) ≠ None) as Hae.
  { intros Hn. by apply (dt_compare_aware _ _ _ Hord) in Hn. }
  rewrite (bound_compare _ _ _ Hl Has Hae) in Hord.
  injection Hord as Hord. apply Z.compare_lt_iff in Hord.
  apply check_not_past_Ok_iff in Hpast.
  rewrite (bound_compare_now _ _ _ Hl Has) in Hpast.
  assert (wall (local_now ctx) ≤ wall (l_start l)) as Hnow.
  { destruct Hpast as [[= Hc] | [= Hc]];
      [apply Z.compare_eq_iff in Hc | apply Z.compare_gt_iff in Hc]; lia. }
  apply check_year_Ok in Hys, Hye.
  apply check_participants_Ok in Hpart as [Hspec Hall].
  destruct (bound_converted _ _ _ Hl) as (s & e & Hs & He & Hcs & Hce & Hns & Hne).
  exists s, e, l. split_and!; try done; try lia.
  - by rewrite <-Hns.
  - by rewrite <-Hne.
  - intros Hacc. split; [|auto].
    by apply (check_students_available_Ok_iff ctx (dict_get cd "access_type")).
Qed.

Lemma accepted_satisfies_rules_witness :
  ∃ s e l,
    dict_get cd_paris_fold "start_date_time" = VDatetime s ∧ tzinfo s ≠ None ∧
    dict_get cd_paris_fold "end_date_time" = VDatetime e ∧ tzinfo e ≠ None ∧
    bind_locals ctx_paris cd_paris_fold = Ok l ∧
    converted ctx_paris s (l_start l) ∧ converted ctx_paris e (l_end l) ∧
    wall (local_now ctx_paris) ≤ wall (l_start l) < wall (l_end l) ∧
    year (local_now ctx_paris) ≤ year (l_start l)
      ≤ year (local_now ctx_paris) + 10 ∧
    year (local_now ctx_paris) ≤ year (l_end l)
      ≤ year (local_now ctx_paris) + 10 ∧
    (dict_get cd_paris_fold "access_type" = VStr "specific_students" →
       truthy (dict_get cd_paris_fold "allowed_students") = true) ∧
    (dict_get cd_paris_fold "access_type" = VStr "all_students" →
       student_count ctx_paris 0%nat ≠ 0 ∧ student_count ctx_paris 1%nat ≠ 0).
Proof.
  apply (accepted_satisfies_rules ctx_paris cd_paris_fold cd_paris_fold).
  apply (clean_accepts ctx_paris cd_paris_fold
           {| wall := paris_fall_back + us_per_hour / 4;
              tzinfo := Some {| tz_key := utc_key; tz_offset := 0 |} |}
           {| wall := paris_fall_back - us_per_hour / 4;
              tzinfo := Some {| tz_key := utc_key; tz_offset := 0 |} |});
    [reflexivity | reflexivity | vm_compute; reflexivity].
Defined.

(** X2: conversely, a candidate whose start and end pass the conversion
    and the type check and come out aware, with now <= start < end on the
    wall clock of the current zone, both years between the current year
    and ten years later, a non-empty queryset of students when limited to
    specific students, and a non-empty student table at both queries when
    open to all students, is accepted. *)
Theorem rules_suffice_for_acceptance ctx cd l :
  bind_locals ctx cd = Ok l →
  tzinfo (l_start l) ≠ None → tzinfo (l_end l) ≠ None →
  wall (local_now ctx) ≤ wall (l_start l) < wall (l_end l) →
  year (local_now ctx) ≤ year (l_start l) ≤ year (local_now ctx) + 10 →
  year (local_now ctx) ≤ year (l_end l) ≤ year (local_now ctx) + 10 →
  (dict_get cd "access_type" = VStr "specific_students" →
     ∃ rows, dict_get cd "allowed_students" = VQuerySet rows ∧ rows ≠ []) →
  (dict_get cd "access_type" = VStr "all_students" →
     student_count ctx 0%nat ≠ 0 ∧ student_count ctx 1%nat ≠ 0) →
  clean ctx cd = Ok cd.
Proof. apply accepted_when_rules_hold. Qed.

Lemma rules_suffice_for_acceptance_witness :
  wall (utc_after_now ctx_paris 0) < paris_fall_back - us_per_hour / 4
    < paris_fall_back + us_per_hour / 4 ∧
  clean ctx_paris cd_paris_fold = Ok cd_paris_fold.
Proof.
  split; [by vm_compute|].
  apply (rules_suffice_for_acceptance ctx_paris cd_paris_fold
           {| l_access_type := VStr "specific_students";
              l_allowed_students := VQuerySet ["s1"];
              l_start :=
                localize ctx_paris
                  {| wall := paris_fall_back + us_per_hour / 4;
                     tzinfo := Some {| tz_key := utc_key; tz_offset := 0 |} |};
              l_end :=
                localize ctx_paris
                  {| wall := paris_fall_back - us_per_hour / 4;
                     tzinfo := Some {| tz_key := utc_key; tz_offset := 0 |} |} |}).
  - apply (bind_locals_datetimes ctx_paris cd_paris_fold); reflexivity.
  - by vm_compute.
  - by vm_compute.
  - by vm_compute.
  - by vm_compute.
  - by vm_compute.
  - intros _. exists ["s1"]. by split.
  - by vm_compute.
Defined.

(** ** Times without a zone, and values that are not times *)

(** X3: when start and end are both naive datetimes and pass every rule
    up to the year tests, [clean] ends with a [TypeError]: the last test
    compares the naive start with the aware now. *)
Theorem naive_times_raise_TypeError ctx cd s e :
  dict_get cd "start_date_time" = VDatetime s → tzinfo s = None →
  dict_get cd "end_date_time" = VDatetime e → tzinfo e = None →
  check_students_available ctx (dict_get cd "access_type") = Ok tt →
  check_participants ctx (dict_get cd "access_type")
                     (dict_get cd "allowed_students") = Ok tt →
  wall s < wall e →
  year (local_now ctx) ≤ year s ≤ year (local_now ctx) + 10 →
  year (local_now ctx) ≤ year e ≤ year (local_now ctx) + 10 →
  clean ctx cd = Crash TypeError.
Proof.
  intros Hs Hns He Hne Havail Hpart Hlt Hys Hye.
  rewrite (clean_datetimes _ _ s e Hs He). simpl.
  rewrite Havail, Hpart, (localize_naive ctx s Hns), (localize_naive ctx e Hne).
  simpl.
  assert (check_ordering s e = Ok tt) as ->.
  { apply check_ordering_Ok. unfold dt_compare. rewrite Hns, Hne.
    f_equal. by apply Z.compare_lt_iff. }
  rewrite !check_year_ok by done. simpl.
  unfold check_not_past, dt_lt, dt_compare. rewrite Hns.
  by destruct (local_now_in_current_zone ctx) as (z & -> & _).
Qed.

Lemma naive_times_raise_TypeError_witness :
  clean ctx_sample cd_naive = Crash TypeError.
Proof.
  apply (naive_times_raise_TypeError ctx_sample cd_naive
           {| wall := wall (local_now ctx_sample) + us_per_hour; tzinfo := None |}
           {| wall := wall (local_now ctx_sample) + 2 * us_per_hour;
              tzinfo := None |});
    try reflexivity; by vm_compute.
Defined.

(** X4: when one of start and end is aware and the other naive, the
    conversion of the aware one returns and both participant checks pass,
    [clean] ends with a [TypeError] at the comparison of start with end. *)
Theorem mixed_awareness_raises_TypeError ctx cd s e l :
  dict_get cd "start_date_time" = VDatetime s →
  dict_get cd "end_date_time" = VDatetime e →
  bind_locals ctx cd = Ok l →
  (tzinfo s = None ∧ tzinfo e ≠ None) ∨ (tzinfo s ≠ None ∧ tzinfo e = None) →
  check_students_available ctx (dict_get cd "access_type") = Ok tt →
  check_participants ctx (dict_get cd "access_type")
                     (dict_get cd "allowed_students") = Ok tt →
  clean ctx cd = Crash TypeError.
Proof.
  intros Hs He Hl Hmixed Havail Hpart.
  destruct (bind_locals_fields _ _ _ Hl) as [Ha Hal].
  rewrite (clean_after_bind _ _ _ Hl). simpl.
  rewrite Ha, Hal, Havail, Hpart. simpl.
  destruct (bound_converted _ _ _ Hl) as (s0 & e0 & Hs0 & He0 & _ & _ & Hns & Hne).
  assert (s0 = s) as -> by congruence. assert (e0 = e) as -> by congruence.
  unfold check_ordering, dt_ge, dt_compare.
  destruct Hmixed as [[H1 H2] | [H1 H2]].
  - rewrite (proj2 Hns H1).
    destruct (tzinfo (l_end l)); [done | by destruct H2; apply Hne].
  - rewrite (proj2 Hne H2).
    destruct (tzinfo (l_start l)); [done | by destruct H1; apply Hns].
Qed.

Lemma mixed_awareness_raises_TypeError_witness :
  clean ctx_paris cd_paris_naive_end = Crash TypeError.
Proof.
  apply (mixed_awareness_raises_TypeError ctx_paris cd_paris_naive_end
           (utc_after_now ctx_paris us_per_hour) dt_naive
           {| l_access_type := VStr "specific_students";
              l_allowed_students := VQuerySet ["s1"];
              l_start := localize ctx_paris (utc_after_now ctx_paris us_per_hour);
              l_end := localize ctx_paris dt_naive |});
    [ reflexivity | reflexivity
    | apply (bind_locals_datetimes ctx_paris cd_paris_naive_end); reflexivity
    | right; by vm_compute | reflexivity | reflexivity ].
Defined.

(** X5: a start value that is a non-empty text, a non-zero integer or a
    non-empty queryset makes [clean] end with an [AttributeError]: the
    conversion step, which comes before the type check, asks it for its
    UTC offset. *)
Theorem start_without_utcoffset_raises_AttributeError ctx cd :
  (∃ text, dict_get cd "start_date_time" = VStr text ∧ text ≠ "") ∨
  (∃ n, dict_get cd "start_date_time" = VInt n ∧ n ≠ 0) ∨
  (∃ rows, dict_get cd "start_date_time" = VQuerySet rows ∧ rows ≠ []) →
  clean ctx cd = Crash AttributeError.
Proof.
  intros H. unfold clean, to_local_if_aware.
  destruct H as [(text & -> & Hne) | [(n & -> & Hne) | (rows & -> & Hne)]];
    simpl.
  - by rewrite (proj2 (String.eqb_neq _ _) Hne).
  - by rewrite (proj2 (Z.eqb_neq _ _) Hne).
  - by rewrite bool_decide_eq_false_2.
Qed.

Lemma start_without_utcoffset_raises_AttributeError_witness :
  clean ctx_sample cd_text_start = Crash AttributeError.
Proof.
  apply (start_without_utcoffset_raises_AttributeError ctx_sample cd_text_start).
  left. exists "tomorrow". split; [reflexivity | by vm_compute].
Defined.

Lemma to_local_if_aware_Ok_cases ctx v v' :
  to_local_if_aware ctx v = Ok v' →
  ((∀ d, v ≠ VDatetime d) ∧ v' = v) ∨
  (∃ d, v = VDatetime d ∧ v' = VDatetime (localize ctx d)).
Proof.
  destruct v as [|str|n|d|rows|aw].
  - intros [= <-]. by left.
  - unfold to_local_if_aware. simpl.
    destruct (negb (String.eqb str "")); [done|]. intros [= <-]. by left.
  - unfold to_local_if_aware. simpl.
    destruct (negb (n =? 0)); [done|]. intros [= <-]. by left.
  - rewrite to_local_if_aware_datetime. intros [= <-]. eauto.
  - unfold to_local_if_aware. simpl.
    destruct (negb (bool_decide (rows = []))); [done|]. intros [= <-]. by left.
  - destruct aw; [done|]. intros [= <-]. by left.
Qed.

Lemma rules_Invalid_inv ctx l m :
  run_checks (rule_checks ctx l) = Invalid m →
  m = msg_all_students_unavailable ∨ m = msg_no_participants ∨
  m = msg_no_students ∨ m = msg_range ∨
  m = msg_start_year (year (local_now ctx)) (year (local_now ctx) + 10) ∨
  m = msg_end_year (year (local_now ctx)) (year (local_now ctx) + 10) ∨
  m = msg_past.
Proof.
  simpl.
  destruct (check_students_available ctx (l_access_type l)) as [[]| |] eqn:H1;
    simpl; [| |done].
  2:{ intros [= <-]. apply check_students_available_Invalid in H1. tauto. }
  destruct (check_participants ctx (l_access_type l) (l_allowed_students l))
    as [[]| |] eqn:H2; simpl; [| |done].
  2:{ intros [= <-]. apply check_participants_Invalid in H2. tauto. }
  destruct (check_ordering (l_start l) (l_end l)) as [[]| |] eqn:H3;
    simpl; [| |done].
  2:{ intros [= <-]. apply check_ordering_Invalid in H3. tauto. }
  destruct (check_year ctx (l_start l) msg_start_year) as [[]| |] eqn:H4;
    simpl; [| |done].
  2:{ intros [= <-]. apply check_year_Invalid in H4. tauto. }
  destruct (check_year ctx (l_end l) msg_end_year) as [[]| |] eqn:H5;
    simpl; [| |done].
  2:{ intros [= <-]. apply check_year_Invalid in H5. tauto. }
  destruct (check_not_past ctx (l_start l)) as [[]| |] eqn:H6;
    simpl; [done| |done].
  intros [= <-]. apply check_not_past_Invalid in H6. tauto.
Qed.

Lemma rules_never_report_a_type_error ctx l :
  run_checks (rule_checks ctx l) ≠ Invalid msg_start_invalid.
Proof.
  intros H. apply rules_Invalid_inv in H.
  destruct H as [H|[H|[H|[H|[H|[H|H]]]]]];
    [by vm_compute in H.. | | | by vm_compute in H].
  - pose proof (msg_start_year_prefix (year (local_now ctx))
                  (year (local_now ctx) + 10)) as Hp.
    rewrite <-H in Hp. by vm_compute in Hp.
  - pose proof (msg_end_year_prefix (year (local_now ctx))
                  (year (local_now ctx) + 10)) as Hp.
    rewrite <-H in Hp. by vm_compute in Hp.
Qed.

(** X6: once the conversion step has returned for the start and for the
    end value, [clean] raises the message about an invalid start time
    exactly when the start value is not a datetime ([None], an empty text or
    queryset, zero, a time of day without offset): the type check of the
    start comes first, and no later statement raises that message. *)
Theorem start_type_error_iff ctx cd vs ve :
  to_local_if_aware ctx (dict_get cd "start_date_time") = Ok vs →
  to_local_if_aware ctx (dict_get cd "end_date_time") = Ok ve →
  clean ctx cd = Invalid msg_start_invalid ↔
  ∀ d, dict_get cd "start_date_time" ≠ VDatetime d.
Proof.
  intros Hvs Hve. rewrite clean_unfold.
  assert (bind_locals ctx cd
          = (s' ← expect_datetime vs msg_start_invalid;
             e' ← expect_datetime ve msg_end_invalid;
             Ok {| l_access_type := dict_get cd "access_type";
                   l_allowed_students := dict_get cd "allowed_students";
                   l_start := s'; l_end := e' |})) as ->.
  { unfold bind_locals. by rewrite Hvs, Hve. }
  apply to_local_if_aware_Ok_cases in Hvs as [[Hnot ->] | (d & Hd & ->)].
  - split; [done|]. intros _.
    destruct (dict_get cd "start_date_time") as [| | |d| |]; try done.
    by destruct (Hnot d).
  - split; [|intros Hnot; by destruct (Hnot d)].
    destruct ve as [| | |e| |]; cbn [mbind result_bind expect_datetime].
    1-3,5-6: intros [= H]; by vm_compute in H.
    destruct (run_checks _) as [[]|m|] eqn:Hrun;
      cbn [mbind result_bind]; [done| |done].
    intros [= ->]. by apply rules_never_report_a_type_error in Hrun.
Qed.

Lemma start_type_error_iff_witness :
  clean ctx_sample cd_time_start = Invalid msg_start_invalid.
Proof.
  apply (start_type_error_iff ctx_sample cd_time_start (VTime false)
           (VDatetime (localize ctx_sample
                         (dt_add (local_now ctx_sample) (2 * us_per_hour)))));
    [reflexivity | reflexivity | intros d; by vm_compute].
Defined.

(** ** The remaining rules, each in its turn *)

(** X7: for every candidate whose start and end pass the conversion and
    the type check and whose access type is [all_students], an empty
    student table at the first query is reported with the message that
    names "All Students". *)
Theorem all_students_empty_table_rejected ctx cd l :
  bind_locals ctx cd = Ok l →
  dict_get cd "access_type" = VStr "all_students" →
  student_count ctx 0%nat = 0 →
  clean ctx cd = Invalid msg_all_students_unavailable.
Proof.
  intros Hl Hacc Hcount.
  destruct (bind_locals_fields _ _ _ Hl) as [Ha _].
  rewrite (clean_after_bind _ _ _ Hl). simpl.
  unfold check_students_available. by rewrite Ha, Hacc, py_eq_str_refl, Hcount.
Qed.

Lemma all_students_empty_table_rejected_witness :
  clean ctx_no_students cd_all_students = Invalid msg_all_students_unavailable.
Proof.
  apply (all_students_empty_table_rejected ctx_no_students cd_all_students
           {| l_access_type := VStr "all_students";
              l_allowed_students := VQuerySet ["s1"];
              l_start := localize ctx_no_students
                           (dt_add (local_now ctx_sample) us_per_hour);
              l_end := localize ctx_no_students
                         (dt_add (local_now ctx_sample) (2 * us_per_hour)) |});
    [ apply (bind_locals_datetimes ctx_no_students cd_all_students); reflexivity
    | reflexivity | reflexivity ].
Defined.

(** X8: when start and end pass the conversion and the type check and
    come out aware, the participant checks pass, start is before end on
    the wall clock of the current zone and both years are within bounds, a
    start that reads earlier than now on that wall clock is rejected as
    being in the past. *)
Theorem past_start_rejected ctx cd l :
  bind_locals ctx cd = Ok l →
  tzinfo (l_start l) ≠ None → tzinfo (l_end l) ≠ None →
  check_students_available ctx (dict_get cd "access_type") = Ok tt →
  check_participants ctx (dict_get cd "access_type")
                     (dict_get cd "allowed_students") = Ok tt →
  wall (l_start l) < wall (l_end l) →
  year (local_now ctx) ≤ year (l_start l) ≤ year (local_now ctx) + 10 →
  year (local_now ctx) ≤ year (l_end l) ≤ year (local_now ctx) + 10 →
  wall (l_start l) < wall (local_now ctx) →
  clean ctx cd = Invalid msg_past.
Proof.
  intros Hl Has Hae Havail Hpart Hlt Hys Hye Hpast.
  destruct (bind_locals_fields _ _ _ Hl) as [Ha Hal].
  rewrite (clean_after_bind _ _ _ Hl). simpl.
  rewrite Ha, Hal, Havail, Hpart. simpl.
  assert (check_ordering (l_start l) (l_end l) = Ok tt) as ->.
  { apply check_ordering_Ok. rewrite (bound_compare _ _ _ Hl Has Hae).
    f_equal. by apply Z.compare_lt_iff. }
  rewrite !check_year_ok by done. simpl.
  unfold check_not_past, dt_lt. rewrite (bound_compare_now _ _ _ Hl Has).
  by rewrite (proj2 (Z.compare_lt_iff _ _) Hpast).
Qed.

Lemma past_start_rejected_witness :
  clean ctx_sample cd_started = Invalid msg_past.
Proof.
  apply (past_start_rejected ctx_sample cd_started
           {| l_access_type := VStr "specific_students";
              l_allowed_students := VQuerySet ["s1"];
              l_start := localize ctx_sample
                           (dt_add (local_now ctx_sample) (- us_per_hour));
              l_end := localize ctx_sample
                         (dt_add (local_now ctx_sample) us_per_hour) |});
    [ apply (bind_locals_datetimes ctx_sample cd_started); reflexivity
    | by vm_compute.. ].
Defined.

(** X9: when start and end pass the conversion and the type check, the
    participant checks pass and start is before end in the comparison
    [clean] makes, a start whose year, as the conversion bound it, is
    before the current year or more than ten years after it is rejected
    with the message that names the two bounding years. *)
Theorem start_year_out_of_bounds_rejected ctx cd l :
  bind_locals ctx cd = Ok l →
  check_students_available ctx (dict_get cd "access_type") = Ok tt →
  check_participants ctx (dict_get cd "access_type")
                     (dict_get cd "allowed_students") = Ok tt →
  dt_ge (l_start l) (l_end l) = Ok false →
  year (l_start l) < year (local_now ctx) ∨
    year (local_now ctx) + 10 < year (l_start l) →
  clean ctx cd
  = Invalid (msg_start_year (year (local_now ctx)) (year (local_now ctx) + 10)).
Proof.
  intros Hl Havail Hpart Hord Hout.
  destruct (bind_locals_fields _ _ _ Hl) as [Ha Hal].
  rewrite (clean_after_bind _ _ _ Hl). simpl.
  rewrite Ha, Hal, Havail, Hpart. simpl.
  unfold check_ordering. rewrite Hord. simpl.
  by rewrite (check_year_out ctx (l_start l) msg_start_year Hout).
Qed.

Lemma start_year_out_of_bounds_rejected_witness :
  clean ctx_sample cd_far_future = Invalid (msg_start_year 2026 2036) ∧
  msg_start_year 2026 2036 = "Start date must be between 2026 and 2036.".
Proof.
  split; [|by vm_compute].
  apply (start_year_out_of_bounds_rejected ctx_sample cd_far_future
           {| l_access_type := VStr "specific_students";
              l_allowed_students := VQuerySet ["s1"];
              l_start := localize ctx_sample
                           (dt_add (local_now ctx_sample) (4100 * us_per_day));
              l_end := localize ctx_sample
                         (dt_add (local_now ctx_sample)
                            (4100 * us_per_day + us_per_hour)) |});
    [ apply (bind_locals_datetimes ctx_sample cd_far_future); reflexivity
    | reflexivity | reflexivity | by vm_compute | right; by vm_compute ].
Defined.

(** X10: under the same conditions, with the year of the start within
    bounds, an end whose year, as the conversion bound it, is out of bounds
    is rejected with the message for the end date. *)
Theorem end_year_out_of_bounds_rejected ctx cd l :
  bind_locals ctx cd = Ok l →
  check_students_available ctx (dict_get cd "access_type") = Ok tt →
  check_participants ctx (dict_get cd "access_type")
                     (dict_get cd "allowed_students") = Ok tt →
  dt_ge (l_start l) (l_end l) = Ok false →
  year (local_now ctx) ≤ year (l_start l) ≤ year (local_now ctx) + 10 →
  year (l_end l) < year (local_now ctx) ∨
    year (local_now ctx) + 10 < year (l_end l) →
  clean ctx cd
  = Invalid (msg_end_year (year (local_now ctx)) (year (local_now ctx) + 10)).
Proof.
  intros Hl Havail Hpart Hord Hys Hout.
  destruct (bind_locals_fields _ _ _ Hl) as [Ha Hal].
  rewrite (clean_after_bind _ _ _ Hl). simpl.
  rewrite Ha, Hal, Havail, Hpart. simpl.
  unfold check_ordering. rewrite Hord. simpl.
  rewrite (check_year_ok ctx (l_start l) msg_start_year Hys).
  cbn [mbind result_bind].
  by rewrite (check_year_out ctx (l_end l) msg_end_year Hout).
Qed.

Lemma end_year_out_of_bounds_rejected_witness :
  clean ctx_sample cd_far_end = Invalid (msg_end_year 2026 2036) ∧
  msg_end_year 2026 2036 = "End date must be between 2026 and 2036.".
Proof.
  split; [|by vm_compute].
  apply (end_year_out_of_bounds_rejected ctx_sample cd_far_end
           {| l_access_type := VStr "specific_students";
              l_allowed_students := VQuerySet ["s1"];
              l_start := localize ctx_sample
                           (dt_add (local_now ctx_sample) us_per_hour);
              l_end := localize ctx_sample
                         (dt_add (local_now ctx_sample) (4100 * us_per_day)) |});
    [ apply (bind_locals_datetimes ctx_sample cd_far_end); reflexivity
    | reflexivity | reflexivity | by vm_compute | by vm_compute
    | right; by vm_compute ].
Defined.

(** ** Zones, and the values the form fields produce *)

Lemma localize_same_instant ctx d d' z z' :
  tzinfo d = Some z → tz_key z ≠ current_timezone ctx →
  tzinfo d' = Some z' → tz_key z' ≠ current_timezone ctx →
  wall d - tz_offset z = wall d' - tz_offset z' →
  localize ctx d = localize ctx d'.
Proof.
  intros Hd Hk Hd' Hk' Hi. unfold localize, astimezone. rewrite Hd, Hd'.
  rewrite !bool_decide_eq_false_2 by done. by rewrite Hi.
Qed.

Lemma verdict_seq {A} (m : result unit) (a : A) : verdict (m;; Ok a) = m.
Proof. by destruct m as [[]| |]. Qed.

Lemma dict_get_insert_ne (d : gmap string value) k k' v :
  k ≠ k' → dict_get (<[k := v]> d) k' = dict_get d k'.
Proof. intros Hne. unfold dict_get. by rewrite lookup_insert_ne. Qed.

(** X11: the verdict of [clean] depends on aware start and end times that
    are written in a zone other than the current one only through the
    instants they denote: giving the same instants in yet another zone
    changes neither the acceptance nor the error. *)
Theorem verdict_depends_on_instants ctx cd s s' e e' zs zs' ze ze' :
  tzinfo s = Some zs → tz_key zs ≠ current_timezone ctx →
  tzinfo s' = Some zs' → tz_key zs' ≠ current_timezone ctx →
  wall s - tz_offset zs = wall s' - tz_offset zs' →
  tzinfo e = Some ze → tz_key ze ≠ current_timezone ctx →
  tzinfo e' = Some ze' → tz_key ze' ≠ current_timezone ctx →
  wall e - tz_offset ze = wall e' - tz_offset ze' →
  verdict (clean ctx (<["start_date_time" := VDatetime s]>
                      (<["end_date_time" := VDatetime e]> cd)))
  = verdict (clean ctx (<["start_date_time" := VDatetime s']>
                        (<["end_date_time" := VDatetime e']> cd))).
Proof.
  intros Hs Hks Hs' Hks' His He Hke He' Hke' Hie.
  rewrite (clean_datetimes _ _ s e), (clean_datetimes _ _ s' e');
    [| unfold dict_get; by simplify_map_eq..].
  rewrite !verdict_seq.
  rewrite (localize_same_instant ctx s s' zs zs'),
          (localize_same_instant ctx e e' ze ze') by done.
  by rewrite !dict_get_insert_ne by done.
Qed.

Lemma verdict_depends_on_instants_witness :
  verdict (clean ctx_sample
             (<["start_date_time" := VDatetime dt_start_plus3]>
              (<["end_date_time" := VDatetime dt_end_utc]> other_fields)))
  = verdict (clean ctx_sample
               (<["start_date_time" := VDatetime dt_start_utc]>
                (<["end_date_time" := VDatetime dt_end_utc]> other_fields))).
Proof.
  apply (verdict_depends_on_instants ctx_sample other_fields
           dt_start_plus3 dt_start_utc dt_end_utc dt_end_utc
           {| tz_key := "UTC+03:00"; tz_offset := 3 * us_per_hour |}
           {| tz_key := utc_key; tz_offset := 0 |}
           {| tz_key := utc_key; tz_offset := 0 |}
           {| tz_key := utc_key; tz_offset := 0 |});
    first [reflexivity | by vm_compute].
Defined.

Lemma run_checks_Crash_inv cs exc :
  run_checks cs = Crash exc → Exists (λ c, c = Crash exc) cs.
Proof.
  induction cs as [|c cs IH]; simpl; [done|].
  destruct c as [[]| |exc']; simpl; [|done|].
  - intros H. apply Exists_cons_tl. auto.
  - intros [= ->]. by apply Exists_cons_hd.
Qed.

Lemma check_students_available_not_Crash ctx a exc :
  check_students_available ctx a ≠ Crash exc.
Proof.
  unfold check_students_available.
  destruct (py_eq_str a _); [apply raise_if_not_Crash | done].
Qed.

Lemma check_participants_not_Crash ctx a al exc :
  al = VNone ∨ (∃ rows, al = VQuerySet rows) →
  check_participants ctx a al ≠ Crash exc.
Proof.
  intros Hal. unfold check_participants.
  destruct (py_eq_str a "specific_students").
  - destruct Hal as [-> | [rows ->]]; simpl; [done|].
    destruct (negb (bool_decide (rows = []))); simpl;
      [apply raise_if_not_Crash | done].
  - destruct (py_eq_str a "all_students"); [apply raise_if_not_Crash | done].
Qed.

(** X12: on the values the fields of the form produce (each time either
    missing or an aware datetime, the selected students either missing or a
    queryset), once the conversion step has returned for both times,
    [clean] accepts or raises a [ValidationError]; it does not end with
    another exception. *)
Theorem clean_never_crashes_on_field_values ctx cd vs ve exc :
  to_local_if_aware ctx (dict_get cd "start_date_time") = Ok vs →
  to_local_if_aware ctx (dict_get cd "end_date_time") = Ok ve →
  dict_get cd "start_date_time" = VNone ∨
    (∃ s, dict_get cd "start_date_time" = VDatetime s ∧ tzinfo s ≠ None) →
  dict_get cd "end_date_time" = VNone ∨
    (∃ e, dict_get cd "end_date_time" = VDatetime e ∧ tzinfo e ≠ None) →
  dict_get cd "allowed_students" = VNone ∨
    (∃ rows, dict_get cd "allowed_students" = VQuerySet rows) →
  clean ctx cd ≠ Crash exc.
Proof.
  intros Hvs Hve Hstart Hend Hal.
  rewrite clean_unfold.
  destruct (bind_locals ctx cd) as [l|m|exc'] eqn:Hl;
    cbn [mbind result_bind]; [|done|].
  2:{ revert Hl. unfold bind_locals. rewrite Hvs, Hve.
      destruct vs; simpl; try done; destruct ve; simpl; done. }
  destruct (run_checks (rule_checks ctx l)) as [[]| |exc'] eqn:Hrun; [done..|].
  intros [= ->].
  destruct (bind_locals_fields _ _ _ Hl) as [Ha Hall].
  destruct (bound_converted _ _ _ Hl) as (s & e & Hs & He & _ & _ & Hns & Hne).
  assert (tzinfo (l_start l) ≠ None) as Has.
  { rewrite Hns. destruct Hstart as [H | (s' & H & Haw)]; congruence. }
  assert (tzinfo (l_end l) ≠ None) as Hae.
  { rewrite Hne. destruct Hend as [H | (e' & H & Haw)]; congruence. }
  apply run_checks_Crash_inv in Hrun. unfold rule_checks in Hrun.
  repeat (apply Exists_cons in Hrun as [Hrun | Hrun]);
    [ .. | by apply Exists_nil in Hrun].
  - by apply check_students_available_not_Crash in Hrun.
  - rewrite Hall in Hrun. by apply check_participants_not_Crash in Hrun.
  - revert Hrun. unfold check_ordering, dt_ge.
    rewrite (bound_compare _ _ _ Hl Has Hae). simpl.
    apply raise_if_not_Crash.
  - by apply raise_if_not_Crash in Hrun.
  - by apply raise_if_not_Crash in Hrun.
  - revert Hrun. unfold check_not_past, dt_lt.
    rewrite (bound_compare_now _ _ _ Hl Has). simpl.
    apply raise_if_not_Crash.
  - by apply raise_if_not_Crash in Hrun.
Qed.

Lemma clean_never_crashes_on_field_values_witness :
  clean ctx_paris cd_paris ≠ Crash TypeError.
Proof.
  apply (clean_never_crashes_on_field_values ctx_paris cd_paris
           (VDatetime (localize ctx_paris (utc_after_now ctx_paris us_per_hour)))
           (VDatetime (localize ctx_paris
                         (utc_after_now ctx_paris (2 * us_per_hour))))).
  - reflexivity.
  - reflexivity.
  - right. exists (utc_after_now ctx_paris us_per_hour).
    split; [reflexivity | by vm_compute].
  - right. exists (utc_after_now ctx_paris (2 * us_per_hour)).
    split; [reflexivity | by vm_compute].
  - right. exists ["s1"]. reflexivity.
Defined.

(** X13: a [ValidationError] raised by [clean] carries one of nine
    messages, the two about years naming the current year and the tenth year
    after it; the message about required times is never among them. *)
Theorem clean_raises_one_of_nine_messages ctx cd m :
  clean ctx cd = Invalid m →
  m ∈ [ msg_start_invalid; msg_end_invalid; msg_all_students_unavailable;
        msg_no_participants; msg_no_students; msg_range;
        msg_start_year (year (local_now ctx)) (year (local_now ctx) + 10);
        msg_end_year (year (local_now ctx)) (year (local_now ctx) + 10);
        msg_past ] ∧
  m ≠ msg_required.
Proof.
  intros H. split.
  - apply clean_Invalid_inv in H.
    destruct H as [->|[->|[->|[->|[(-> & _)|[->|[->|[->| ->]]]]]]]];
      set_solver.
  - intros ->. by apply required_never_raised in H.
Qed.

Lemma clean_raises_one_of_nine_messages_witness :
  msg_past
  ∈ [ msg_start_invalid; msg_end_invalid; msg_all_students_unavailable;
      msg_no_participants; msg_no_students; msg_range;
      msg_start_year (year (local_now ctx_sample)) (year (local_now ctx_sample) + 10);
      msg_end_year (year (local_now ctx_sample)) (year (local_now ctx_sample) + 10);
      msg_past ] ∧
  msg_past ≠ msg_required.
Proof.
  apply (clean_raises_one_of_nine_messages ctx_sample cd_started).
  vm_compute. reflexivity.
Defined.


(** * [Meta] and [__init__] *)

(** ** The calendar again: what [year_of_days] computes *)

Lemma year_of_days_bounds n :
  days_before_year (year_of_days n) ≤ n < days_before_year (year_of_days n + 1).
Proof.
  unfold year_of_days, days_before_year. cbv zeta.
  repeat match goal with
         | |- context [ ?a =? ?b ] => destruct (Z.eqb_spec a b)
         end; cbn [orb];
    Z.to_euclidean_division_equations; lia.
Qed.

Lemma days_before_year_mono y1 y2 :
  y1 ≤ y2 → days_before_year y1 ≤ days_before_year y2.
Proof. unfold days_before_year. intros H. Z.to_euclidean_division_equations. lia. Qed.

Lemma ten_years_have_3650_days y :
  days_before_year (y + 1) + 3650 ≤ days_before_year (y + 11).
Proof. unfold days_before_year. Z.to_euclidean_division_equations. lia. Qed.

Lemma nine_years_have_less_than_3650_days y :
  days_before_year (y + 9) ≤ days_before_year y + 3650.
Proof. unfold days_before_year. Z.to_euclidean_division_equations. lia. Qed.

Lemma year_of_days_mono n m : n ≤ m → year_of_days n ≤ year_of_days m.
Proof.
  intros Hnm.
  destruct (Z.le_gt_cases (year_of_days n) (year_of_days m)) as [|Hlt]; [done|].
  pose proof (year_of_days_bounds n) as [Hn _].
  pose proof (year_of_days_bounds m) as [_ Hm].
  pose proof (days_before_year_mono (year_of_days m + 1) (year_of_days n)).
  lia.
Qed.

Lemma year_of_days_3650_later n :
  year_of_days n + 9 ≤ year_of_days (n + 3650) ≤ year_of_days n + 10.
Proof.
  pose proof (year_of_days_bounds n) as [Hn1 Hn2].
  pose proof (year_of_days_bounds (n + 3650)) as [Hm1 Hm2].
  pose proof (ten_years_have_3650_days (year_of_days n)).
  pose proof (nine_years_have_less_than_3650_days (year_of_days n)).
  split.
  - destruct (Z.le_gt_cases (year_of_days n + 9) (year_of_days (n + 3650)));
      [done|].
    pose proof (days_before_year_mono (year_of_days (n + 3650) + 1)
                  (year_of_days n + 9)). lia.
  - destruct (Z.le_gt_cases (year_of_days (n + 3650)) (year_of_days n + 10));
      [done|].
    pose proof (days_before_year_mono (year_of_days n + 11)
                  (year_of_days (n + 3650))). lia.
Qed.

Lemma year_mono d d' : wall d ≤ wall d' → year d ≤ year d'.
Proof.
  intros H. unfold year. apply year_of_days_mono.
  apply Z.div_le_mono; [done | exact H].
Qed.

Lemma year_Meta_max_bound ctx :
  year (local_now ctx) + 9 ≤ year (Meta_max_bound ctx) ≤ year (local_now ctx) + 10.
Proof.
  unfold year, Meta_max_bound, dt_add. cbn [wall].
  replace (365 * 10 * us_per_day) with (3650 * us_per_day) by done.
  rewrite Z.div_add by done. apply year_of_days_3650_later.
Qed.

Lemma day_le_of_minute_le w w' :
  w / us_per_minute ≤ w' / us_per_minute → w / us_per_day ≤ w' / us_per_day.
Proof. unfold us_per_minute, us_per_day. Z.to_euclidean_division_equations. lia. Qed.

(** ** The range of the widgets and the year rule *)

(** X14: the upper bound of the two widgets, now plus 3650 days, lies in
    the ninth or the tenth year after the current one, so a time that is
    not before the minute of now (the lower bound, which has no seconds)
    and not after the upper bound, read on the local wall clock at the same
    now, always passes the year rule of [clean]. *)
Theorem widget_range_passes_year_rule ctx d msg :
  wall (local_now ctx) / us_per_minute ≤ wall (localize ctx d) / us_per_minute →
  wall (localize ctx d) ≤ wall (Meta_max_bound ctx) →
  year (local_now ctx) + 9 ≤ year (Meta_max_bound ctx)
    ≤ year (local_now ctx) + 10 ∧
  check_year ctx (localize ctx d) msg = Ok tt.
Proof.
  intros Hmin Hmax.
  pose proof (year_Meta_max_bound ctx) as Hbound.
  split; [exact Hbound|].
  apply check_year_ok.
  pose proof (year_mono _ _ Hmax).
  pose proof (year_of_days_mono _ _ (day_le_of_minute_le _ _ Hmin)) as Hlow.
  fold (year (local_now ctx)) in Hlow. fold (year (localize ctx d)) in Hlow.
  lia.
Qed.

Lemma widget_range_passes_year_rule_witness :
  (year (local_now ctx_sample) + 9 ≤ year (Meta_max_bound ctx_sample)
     ≤ year (local_now ctx_sample) + 10 ∧
   check_year ctx_sample (localize ctx_sample dt_start_utc) msg_start_year = Ok tt) ∧
  Meta_min_date ctx_sample = "2026-11-03T14:00" ∧
  Meta_max_date ctx_sample = "2036-10-31T14:00".
Proof.
  split; [|by vm_compute].
  apply (widget_range_passes_year_rule ctx_sample dt_start_utc msg_start_year);
    by vm_compute.
Defined.

(** ** The initial values of the two time fields *)

Lemma day_of_minute w w' :
  w / us_per_minute = w' / us_per_minute → w / us_per_day = w' / us_per_day.
Proof. unfold us_per_minute, us_per_day. Z.to_euclidean_division_equations. lia. Qed.

Lemma hour_of_minute w w' :
  w / us_per_minute = w' / us_per_minute →
  (w mod us_per_day) / us_per_hour = (w' mod us_per_day) / us_per_hour.
Proof.
  unfold us_per_minute, us_per_day, us_per_hour.
  Z.to_euclidean_division_equations. lia.
Qed.

Lemma minute_of_minute w w' :
  w / us_per_minute = w' / us_per_minute →
  (w mod us_per_hour) / us_per_minute = (w' mod us_per_hour) / us_per_minute.
Proof.
  unfold us_per_minute, us_per_hour.
  Z.to_euclidean_division_equations. lia.
Qed.

Lemma strftime_minutes_same_minute d d' :
  wall d / us_per_minute = wall d' / us_per_minute →
  strftime_minutes d = strftime_minutes d'.
Proof.
  intros H. unfold strftime_minutes, year, month_and_day, hour, minute.
  by rewrite (day_of_minute _ _ H), (hour_of_minute _ _ H),
             (minute_of_minute _ _ H).
Qed.

(** X15: the initial value [__init__] gives to a time field of a saved
    exam depends on the stored aware time only through the minute that its
    conversion to the current zone shows on the local wall clock: the zone
    in which it is stored and its seconds do not show. *)
Theorem initial_depends_on_local_minute ctx d d' z z' :
  tzinfo d = Some z → tzinfo d' = Some z' →
  wall (localize ctx d) / us_per_minute
  = wall (localize ctx d') / us_per_minute →
  initial_of ctx (VDatetime d) = initial_of ctx (VDatetime d').
Proof.
  intros Hd Hd' Hmin. unfold initial_of, timezone_localtime. simpl.
  unfold localize in Hmin. rewrite Hd, Hd' in *. simpl. do 2 f_equal.
  by apply strftime_minutes_same_minute.
Qed.

Lemma initial_depends_on_local_minute_witness :
  initial_of ctx_sample (inst_start_date_time exam_saved)
  = initial_of ctx_sample (inst_start_date_time exam_saved_local) ∧
  initial_of ctx_sample (inst_start_date_time exam_saved_local)
  = Ok (VStr "2026-11-03T15:00").
Proof.
  split; [|by vm_compute].
  apply (initial_depends_on_local_minute ctx_sample _ _
           {| tz_key := utc_key; tz_offset := 0 |}
           {| tz_key := "UTC+03:00"; tz_offset := 3 * us_per_hour |});
    reflexivity.
Defined.

(** X16: for a saved exam (a primary key that is true in a condition)
    whose stored start time is a naive datetime, [__init__] ends with the
    [ValueError] of [timezone.localtime]. *)
Theorem init_naive_start_raises_ValueError ctx instance d :
  truthy (pk instance) = true →
  inst_start_date_time instance = VDatetime d → tzinfo d = None →
  init ctx instance = Crash ValueError.
Proof.
  intros Hpk Hs Hd. unfold init, initial_of, timezone_localtime.
  by rewrite Hpk, Hs, Hd.
Qed.

Lemma init_naive_start_raises_ValueError_witness :
  init ctx_sample exam_saved_naive = Crash ValueError ∧
  ∃ fields, init ctx_sample exam_unsaved_naive = Ok fields ∧
            start_initial fields = VNone.
Proof.
  split.
  - apply (init_naive_start_raises_ValueError ctx_sample exam_saved_naive dt_naive);
      reflexivity.
  - eexists. split; [vm_compute|]; reflexivity.
Defined.

(** X17: for an exam whose stored times are each missing or a datetime
    for which [timezone.localtime] returns, [__init__] completes: it keeps
    the queryset filter and the help text, and gives each time field either
    no initial value or a text. *)
Theorem init_completes_on_stored_values ctx instance :
  inst_start_date_time instance = VNone ∨
    (∃ s s', inst_start_date_time instance = VDatetime s ∧
             timezone_localtime ctx (VDatetime s) = Ok (VDatetime s')) →
  inst_end_date_time instance = VNone ∨
    (∃ e e', inst_end_date_time instance = VDatetime e ∧
             timezone_localtime ctx (VDatetime e) = Ok (VDatetime e')) →
  ∃ fields,
    init ctx instance = Ok fields ∧
    allowed_students_user_type fields = "student" ∧
    allowed_students_help_text fields
      = "Hold Ctrl/Cmd to select multiple students" ∧
    (start_initial fields = VNone ∨ ∃ text, start_initial fields = VStr text) ∧
    (end_initial fields = VNone ∨ ∃ text, end_initial fields = VStr text).
Proof.
  intros Hs He. unfold init.
  destruct (truthy (pk instance)); [|eexists; split_and!; eauto].
  assert (∀ v, v = VNone ∨
               (∃ d d', v = VDatetime d ∧
                        timezone_localtime ctx (VDatetime d) = Ok (VDatetime d')) →
               ∃ i, initial_of ctx v = Ok i ∧ (i = VNone ∨ ∃ text, i = VStr text))
    as Hinitial.
  { intros v [-> | (d & d' & -> & Hd)]; unfold initial_of;
      cbn [truthy]; [eauto|].
    rewrite Hd. simpl. eauto. }
  destruct (Hinitial _ Hs) as (si & -> & Hsi).
  destruct (Hinitial _ He) as (ei & -> & Hei).
  simpl. eexists; split_and!; eauto.
Qed.

Lemma init_completes_on_stored_values_witness :
  ∃ fields,
    init ctx_sample exam_saved = Ok fields ∧
    allowed_students_user_type fields = "student" ∧
    allowed_students_help_text fields
      = "Hold Ctrl/Cmd to select multiple students" ∧
    (start_initial fields = VNone ∨ ∃ text, start_initial fields = VStr text) ∧
    (end_initial fields = VNone ∨ ∃ text, end_initial fields = VStr text).
Proof.
  apply (init_completes_on_stored_values ctx_sample exam_saved).
  - right. eexists _, _. split; reflexivity.
  - right. eexists _, _. split; reflexivity.
Defined.
